(** * lyscripts.predict: prevalence and risk prediction

    A shallow embedding of [lyscripts/predict/prevalences.py] and
    [lyscripts/predict/risks.py], and the properties of the scenario
    evaluation engine stated against it.

    Conventions of the embedding:
    - a Python exception is a value of [exn]; a computation that may raise
      has type [result A];
    - a Python/numpy float is an element of a type [num] that carries the
      six arithmetic operations of the class [Number].  No law is built in:
      each theorem lists the laws it uses as hypotheses, so that one can
      read off whether binary64 arithmetic satisfies them.  Concrete runs
      use two instances: the exact rationals [Qc], and the binary64
      floats of the kernel, the program's own numbers;
    - a pandas boolean row selector is a [mask]: either a bare Python
      [bool] or a boolean [Series];
    - a pandas [DataFrame] is a list of rows under a list of column keys. *)

From Stdlib Require Import PrimFloat.
From Stdlib Require Import QArith Qcanon.
From stdpp Require Import base option list strings gmap.

(** ** Exceptions *)

(** The exceptions that the scripts raise or catch, and any other one
    that a helper outside of them may raise. *)
Inductive exn : Type :=
| TypeError
| KeyError
| ValueError
| IndexError
| OtherError (name : string).

Inductive result (A : Type) : Type :=
| Ok (a : A)
| Raise (e : exn).
Arguments Ok {A} a.
Arguments Raise {A} e.

#[global] Instance exn_eq_dec : EqDecision exn.
Proof. solve_decision. Defined.

#[global] Instance result_ret : MRet result := fun _ a => Ok a.
#[global] Instance result_bind : MBind result := fun _ _ f c =>
  match c with
  | Ok a => f a
  | Raise e => Raise e
  end.
#[global] Instance result_fmap : FMap result := fun _ _ f c =>
  match c with
  | Ok a => Ok (f a)
  | Raise e => Raise e
  end.

(** [for x in xs: s = body(s, x)], where the body may raise. *)
Fixpoint for_each {S A : Type} (xs : list A) (body : S -> A -> result S)
    (s : S) : result S :=
  match xs with
  | [] => Ok s
  | x :: xs' => s' ← body s x; for_each xs' body s'
  end.

(** Two computations that raise the same exception or return related
    values. *)
Definition result_rel {A B : Type} (R : A -> B -> Prop) (a : result A)
    (b : result B) : Prop :=
  match a, b with
  | Ok x, Ok y => R x y
  | Raise e, Raise e' => e = e'
  | _, _ => False
  end.

(** Python's [range(n)]. *)
Definition range (n : nat) : list nat := seq 0 n.

(** [l[i]] for a non-negative index. *)
Definition getitem {A : Type} (l : list A) (i : nat) : result A :=
  match l !! i with
  | Some x => Ok x
  | None => Raise IndexError
  end.

(** [l[-k]] for [k >= 1]. *)
Definition getitem_back {A : Type} (l : list A) (k : nat) : result A :=
  if decide (1 <= k <= length l) then getitem l (length l - k)
  else Raise IndexError.

(** ** Numbers *)

Class Number (num : Type) : Type := {
  zero : num;
  one : num;
  add : num -> num -> num;
  sub : num -> num -> num;
  mul : num -> num -> num;
  div : num -> num -> num;
}.

Infix "[+]" := add (at level 50, left associativity).
Infix "[-]" := sub (at level 50, left associativity).
Infix "[*]" := mul (at level 40, left associativity).
Infix "[/]" := div (at level 40, left associativity).

#[global] Instance Qc_number : Number Qc := {|
  zero := 0%Qc;
  one := 1%Qc;
  add := Qcplus;
  sub := Qcminus;
  mul := Qcmult;
  div := Qcdiv;
|}.

(** The numbers of the program: IEEE 754 binary64 with rounding to
    nearest, as Python's [float] and numpy's [float64] compute. *)
#[global] Instance float_number : Number float := {|
  zero := 0%float;
  one := 1%float;
  add := PrimFloat.add;
  sub := PrimFloat.sub;
  mul := PrimFloat.mul;
  div := PrimFloat.div;
|}.

(** ** The cumulative midline-extension probability *)

Section MidlineExtProb.
Context {num : Type} `{Number num}.

(** The inner loop of [calculate_midline_ext_prob]:
    [for t in range(diagnosis_timestep): acc *= (1 - rates[t])]. *)
Definition no_extension_until (midline_ext_prob_rates : list num)
    (diagnosis_timestep : nat) : result num :=
  for_each (range diagnosis_timestep)
    (fun acc t =>
       r ← getitem midline_ext_prob_rates t;
       Ok (acc [*] (one [-] r)))
    one.

Definition calculate_midline_ext_prob (diag_prob : list num)
    (midline_ext_prob_rates : list num) : result num :=
  let num_timesteps := length diag_prob in
  cumulative_probability ←
    for_each (range num_timesteps)
      (fun cumulative_probability diagnosis_timestep =>
         at_diagnosis ←
           no_extension_until midline_ext_prob_rates diagnosis_timestep;
         p ← getitem diag_prob diagnosis_timestep;
         Ok (cumulative_probability [+] at_diagnosis [*] p))
      zero;
  Ok (one [-] cumulative_probability).

(** The closed formula of the specification: sums and products over an
    initial segment of the naturals, taken in increasing order. *)
Fixpoint big_sum (f : nat -> num) (n : nat) : num :=
  match n with
  | O => zero
  | S n' => big_sum f n' [+] f n'
  end.

Fixpoint big_prod (f : nat -> num) (n : nat) : num :=
  match n with
  | O => one
  | S n' => big_prod f n' [*] f n'
  end.

Definition entry (l : list num) (i : nat) : num := default zero (l !! i).

Definition cumulative_midline_probability (diag_prob rates : list num) : num :=
  one [-] big_sum
           (fun t => entry diag_prob t [*]
                     big_prod (fun s => one [-] entry rates s) t)
           (length diag_prob).
End MidlineExtProb.

(** ** Patterns *)

(** A pattern maps a lymph node level to [Some true], [Some false] or
    [None] (unknown); a level can also be absent from the dictionary.
    [constraint_of] is the test of the loop of [get_match_idx]:
    [lnl not in pattern or pattern[lnl] is None] gives [None]. *)
Definition constraint_of (pattern : gmap string (option bool)) (lnl : string)
    : option bool :=
  match pattern !! lnl with
  | Some (Some v) => Some v
  | Some None | None => None
  end.

(** Modelled from the spec: [complete_pattern] of [lyscripts.predict.utils]
    is not among the sources.  "For every level in levels not present (or
    explicitly null) in pattern, insert Unknown.  Operates per side when the
    pattern is side-structured.  Pure, total function - never fails." *)
Definition complete_side (pattern : gmap string (option bool))
    (lnls : list string) : gmap string (option bool) :=
  foldr (fun lnl acc =>
           match constraint_of acc lnl with
           | Some _ => acc
           | None => <[lnl := None]> acc
           end)
        pattern lnls.

Definition complete_pattern
    (pattern : option (gmap string (gmap string (option bool))))
    (lnls : list string) : gmap string (gmap string (option bool)) :=
  let given := default ∅ pattern in
  foldr (fun side acc =>
           <[side := complete_side (default ∅ (given !! side)) lnls]> acc)
        given ["ipsi"; "contra"].

(** Modelled from the spec: [clean_pattern] of [lyscripts.predict.utils] is
    not among the sources.  "Semantically equivalent normalization used on
    the risk path (separate entry point, identical contract)." *)
Definition clean_pattern
    (pattern : option (gmap string (gmap string (option bool))))
    (lnls : list string) : gmap string (gmap string (option bool)) :=
  complete_pattern pattern lnls.

(** [d[k]] on a Python dictionary. *)
Definition dict_get {V : Type} (d : gmap string V) (k : string) : result V :=
  match d !! k with
  | Some v => Ok v
  | None => Raise KeyError
  end.

(** ** Tables *)

(** A cell holds a boolean, a string, or nothing (NaN / None). *)
Inductive cell : Type :=
| CBool (b : bool)
| CStr (s : string)
| CNone.

#[global] Instance cell_eq_dec : EqDecision cell.
Proof. solve_decision. Defined.

(** A [DataFrame] with hierarchical column labels: [nlevels] is
    [data.columns.nlevels], a column key is the tuple of its labels, a row
    maps column keys to cells. *)
Record DataFrame : Type := mkDataFrame {
  nlevels : nat;
  columns : list (list string);
  rows : list (gmap (list string) cell);
}.

Definition len (data : DataFrame) : nat := length (rows data).

Definition cell_at (r : gmap (list string) cell) (k : list string) : cell :=
  default CNone (r !! k).

(** [data[k]] for a full column key: a Series, or [KeyError]. *)
Definition column (data : DataFrame) (k : list string) : result (list cell) :=
  if decide (k ∈ columns data) then Ok ((fun r => cell_at r k) <$> rows data)
  else Raise KeyError.

Definition strip_label (label : string) (k : list string)
    : option (list string) :=
  match k with
  | l :: rest => if decide (l = label) then Some rest else None
  | [] => None
  end.

(** [data[label]] for a label of the first level of a deeper hierarchy:
    the frame of the columns below it, or [KeyError]. *)
Definition subframe (data : DataFrame) (label : string) : result DataFrame :=
  let below := omap (strip_label label) (columns data) in
  if decide (below = []) then Raise KeyError
  else Ok {| nlevels := pred (nlevels data);
             columns := below;
             rows := (fun r =>
                        list_to_map
                          ((fun k => (k, cell_at r (label :: k))) <$> below))
                     <$> rows data |}.

(** A row selector: a bare Python [bool] or a boolean Series.  All Series
    combined below are taken from one frame and share its index. *)
Inductive mask : Type :=
| Scalar (b : bool)
| Series (l : list bool).

#[global] Instance mask_eq_dec : EqDecision mask.
Proof. solve_decision. Defined.

(** [a & b] and [a | b]; a bare [bool] is broadcast over a Series. *)
Definition mask_and (a b : mask) : mask :=
  match a, b with
  | Scalar x, Scalar y => Scalar (x && y)
  | Scalar x, Series l => Series (andb x <$> l)
  | Series l, Scalar y => Series ((fun v => v && y) <$> l)
  | Series l, Series l' => Series (zip_with andb l l')
  end.

Definition mask_or (a b : mask) : mask :=
  match a, b with
  | Scalar x, Scalar y => Scalar (x || y)
  | Scalar x, Series l => Series (orb x <$> l)
  | Series l, Scalar y => Series ((fun v => v || y) <$> l)
  | Series l, Series l' => Series (zip_with orb l l')
  end.

(** [~m], the pointwise negation. *)
Definition mask_not (m : mask) : mask :=
  match m with
  | Scalar x => Scalar (negb x)
  | Series l => Series (negb <$> l)
  end.

(** A selector that is true for all rows; its negation is the selector
    that is false for all rows. *)
Definition all_true (m : mask) : bool :=
  match m with
  | Scalar x => x
  | Series l => forallb id l
  end.

(** The value of a selector at row [i]. *)
Definition mask_at (m : mask) (i : nat) : option bool :=
  match m with
  | Scalar x => Some x
  | Series l => l !! i
  end.

Definition select_rows {A : Type} (l : list A) (keep : list bool) : list A :=
  fst <$> filter (fun p => snd p = true) (zip l keep).

(** [data.loc[m]]: a boolean Series keeps the rows it marks; a bare [bool]
    is looked up as a row label, and pandas refuses a boolean label on an
    index that is not boolean with a [KeyError]. *)
Definition loc_rows (data : DataFrame) (m : mask) : result DataFrame :=
  match m with
  | Scalar _ => Raise KeyError
  | Series keep =>
      Ok {| nlevels := nlevels data;
            columns := columns data;
            rows := select_rows (rows data) keep |}
  end.

(** [data.loc[m, label]]. *)
Definition loc (data : DataFrame) (m : mask) (label : string)
    : result DataFrame :=
  selected ← loc_rows data m; subframe selected label.

(** [data.dropna(axis="index", how="all")]. *)
Definition dropna_all (data : DataFrame) : DataFrame :=
  {| nlevels := nlevels data;
     columns := columns data;
     rows := filter (fun r => Exists (fun k => cell_at r k <> CNone)
                                     (columns data))
                    (rows data) |}.

(** [series == v] and [series != v], cell by cell. *)
Definition cell_is_bool (v : bool) (c : cell) : bool :=
  bool_decide (c = CBool v).

Definition cell_is_str (v : string) (c : cell) : bool :=
  bool_decide (c = CStr v).

Definition cell_isin (vs : list string) (c : cell) : bool :=
  match c with
  | CStr s => bool_decide (s ∈ vs)
  | _ => false
  end.

(** ** Matching a pattern against a table *)

Definition get_match_idx (match_idx : mask)
    (pattern : gmap string (option bool)) (data : DataFrame)
    (lnls : list string) (invert : bool) : result mask :=
  for_each lnls
    (fun match_idx lnl =>
       match constraint_of pattern lnl with
       | None => Ok match_idx
       | Some v =>
           series ← column data [lnl];
           if invert
           then Ok (mask_or match_idx
                      (Series ((fun c => negb (cell_is_bool v c)) <$> series)))
           else Ok (mask_and match_idx (Series (cell_is_bool v <$> series)))
       end)
    match_idx.

Definition does_t_stage_match (data : DataFrame) (t_stage : string)
    : result mask :=
  if decide (nlevels data = 3) then
    series ← column data ["info"; "tumor"; "t_stage"];
    if decide (t_stage = "early/late")
    then Ok (Series (cell_isin ["early"; "late"] <$> series))
    else Ok (Series (cell_is_str t_stage <$> series))
  else if decide (nlevels data = 2) then
    series ← column data ["info"; "t_stage"];
    if decide (t_stage = "early/late")
    then Ok (Series (cell_isin ["early"; "late"] <$> series))
    else Ok (Series (cell_is_str t_stage <$> series))
  else Raise ValueError.

Definition does_midline_ext_match (data : DataFrame)
    (midline_ext : option bool) : result mask :=
  match midline_ext with
  | None => Ok (Scalar true)
  | Some v =>
      if decide (nlevels data = 2) then Ok (Scalar true)
      else
        match column data ["info"; "tumor"; "midline_extension"] with
        | Ok series => Ok (Series (cell_is_bool v <$> series))
        | Raise KeyError => Raise KeyError
        | Raise e => Raise e
        end
  end.

(** The rows of [compute_observed_prevalence] that survive the t-stage
    and midline filters and the drop of rows without any diagnosis under
    [modality] (lines 274 to 278). *)
Definition eligible_data (data : DataFrame) (t_stage modality : string)
    (midline_ext : option bool) : result DataFrame :=
  has_matching_t_stage ← does_t_stage_match data t_stage;
  has_matching_midline_ext ← does_midline_ext_match data midline_ext;
  eligible ←
    loc data (mask_and has_matching_t_stage has_matching_midline_ext) modality;
  Ok (dropna_all eligible).

(** The row selector of [compute_observed_prevalence] (lines 281 to 298). *)
Definition do_lnls_match (pattern : gmap string (gmap string (option bool)))
    (data eligible : DataFrame) (lnls : list string) (invert : bool)
    : result mask :=
  let start := Scalar (negb invert) in
  if decide (nlevels data = 2) then
    ipsi ← dict_get pattern "ipsi";
    get_match_idx start ipsi eligible lnls invert
  else
    for_each ["ipsi"; "contra"]
      (fun matched side =>
         pattern_side ← dict_get pattern side;
         eligible_side ← subframe eligible side;
         get_match_idx matched pattern_side eligible_side lnls invert)
      start.

Definition compute_observed_prevalence
    (pattern : option (gmap string (gmap string (option bool))))
    (data : DataFrame) (lnls : list string) (t_stage modality : string)
    (midline_ext : option bool) (invert : bool) : result (nat * nat) :=
  let pattern := complete_pattern pattern lnls in
  eligible ← eligible_data data t_stage modality midline_ext;
  matched ← do_lnls_match pattern data eligible lnls invert;
  match loc_rows eligible matched with
  | Ok matching_data => Ok (len matching_data, len eligible)
  | Raise KeyError =>
      let len_matching_data := if invert then 0 else len eligible in
      Ok (len_matching_data, len eligible)
  | Raise e => Raise e
  end.

(** The specification's [pattern_match_mask]: first the levels that
    constrain (present in the pattern and not unknown), then one test per
    such level - equality in normal mode, inequality in inverted mode -
    and-folded, respectively or-folded, onto the start. *)
Definition constrained_levels (pattern : gmap string (option bool))
    (lnls : list string) : list (string * bool) :=
  omap (fun lnl => pair lnl <$> constraint_of pattern lnl) lnls.

Definition level_test (invert : bool) (level : string * bool)
    (r : gmap (list string) cell) : bool :=
  if invert then negb (cell_is_bool (snd level) (cell_at r [fst level]))
  else cell_is_bool (snd level) (cell_at r [fst level]).

Definition pattern_match_mask (start : mask)
    (pattern : gmap string (option bool)) (data : DataFrame)
    (lnls : list string) (invert : bool) : result mask :=
  for_each (constrained_levels pattern lnls)
    (fun matched level =>
       if decide ([fst level] ∈ columns data) then
         let test := Series (level_test invert level <$> rows data) in
         Ok (if invert then mask_or matched test else mask_and matched test)
       else Raise KeyError)
    start.

(** How many levels a pattern constrains. *)
Definition constrained_count (pattern : gmap string (option bool)) : nat :=
  size (filter (fun kv => snd kv <> None) pattern).

(** The sides of the pattern that [compute_observed_prevalence] reads, and
    the sides of the table that it slices. *)
Definition relevant_sides (data : DataFrame) : list string :=
  if decide (nlevels data = 2) then ["ipsi"] else ["ipsi"; "contra"].

Definition sliced_sides (data : DataFrame) : list string :=
  if decide (nlevels data = 2) then [] else ["ipsi"; "contra"].

Definition constrains_no_level
    (pattern : gmap string (gmap string (option bool)))
    (sides lnls : list string) : bool :=
  forallb (fun side =>
             match pattern !! side with
             | Some pattern_side =>
                 forallb (fun lnl =>
                            bool_decide (constraint_of pattern_side lnl = None))
                         lnls
             | None => true
             end)
          sides.

(** ** The progression model *)

(** The classes that [isinstance] tells apart; [OtherClass] stands for any
    object that is none of the three models of the [lymph] package. *)
Inductive model_class : Type :=
| Unilateral
| Bilateral
| MidlineBilateral
| OtherClass.

#[global] Instance model_class_eq_dec : EqDecision model_class.
Proof. solve_decision. Defined.

(** An involvement or a diagnosis handed to the model: the pattern of one
    side (unilateral model) or of both sides. *)
Inductive pattern_arg : Type :=
| Flat (pattern : gmap string (option bool))
| Sided (pattern : gmap string (gmap string (option bool))).

(** A model object: its class, the two attributes that the scripts
    assign, and the rest of its state ([internals]: graph, assigned
    parameters, time distributions), which only the package reads. *)
Record LymphModel (num St : Type) : Type := mkLymphModel {
  class_of : model_class;
  modalities : gmap string (list num);
  patient_data : option DataFrame;
  internals : St;
}.
Arguments mkLymphModel {num St} _ _ _ _.
Arguments class_of {num St} _.
Arguments modalities {num St} _.
Arguments patient_data {num St} _.
Arguments internals {num St} _.

(** Modelled from the spec: the [lymph] package is not among the sources.
    "The progression model itself exposes likelihood(...) and risk(...)
    given a parameter vector and scenario constraints - an opaque
    capability this core only calls", with "likelihood(params, t_stages,
    prevalence_mode) -> float | (float, float)" and "risk(involvement,
    params, given_diagnoses, t_stage, midline_extension?) -> float";
    "per-sample predictions are pure functions of (params, scenario, static
    model state)".
    [likelihood_pair] is [likelihood] where the source indexes its result
    with [0] and [1] (the synthetic patients with and without midline
    extension); [likelihood] is the same method where the source computes
    with the result.  [check_and_assign] stores the parameters in the
    model; [diag_time_dists] is [model.ext.ipsi.diag_time_dists], from a
    t-stage to the pmf over the diagnosis time.
    The helpers [get_lnls] and [flatten] of [lyscripts.utils] are not
    among the sources either and are parameters: [get_lnls] returns the
    levels of a model or raises, [flatten modality pattern] is
    [flatten({modality: pattern})], the column keys of the pattern with
    their values. *)
Class Lymph (num St : Type) : Type := {
  get_lnls : LymphModel num St -> result (list string);
  flatten : string -> pattern_arg -> list (list string * cell);
  check_and_assign : LymphModel num St -> list num -> St;
  diag_time_dists : LymphModel num St -> gmap string (list num);
  likelihood :
    LymphModel num St -> list num -> option (list string) -> bool -> num;
  likelihood_pair :
    LymphModel num St -> list num -> option (list string) -> bool
    -> num * num;
  risk :
    LymphModel num St -> pattern_arg -> list num -> gmap string pattern_arg
    -> string -> option bool -> num;
}.

(** ** Synthetic patients *)

Definition cell_of (v : option bool) : cell :=
  match v with
  | Some b => CBool b
  | None => CNone
  end.

(** [pd.DataFrame(flat_pattern, index=[0])]: the keys of the dictionary
    are the column keys, and the hierarchy is as deep as they are long. *)
Definition single_row (flat : list (list string * cell)) : DataFrame :=
  {| nlevels := match flat with
                | [] => 1
                | kv :: _ => length (fst kv)
                end;
     columns := fst <$> flat;
     rows := [list_to_map flat] |}.

(** [data[k] = c]. *)
Definition set_column (data : DataFrame) (k : list string) (c : cell)
    : DataFrame :=
  {| nlevels := nlevels data;
     columns := if decide (k ∈ columns data) then columns data
                else columns data ++ [k];
     rows := <[k := c]> <$> rows data |}.

(** [pd.concat(frames, ignore_index=True)] of frames with equal columns. *)
Definition concat (first : DataFrame) (others : list DataFrame) : DataFrame :=
  {| nlevels := nlevels first;
     columns := columns first;
     rows := rows first ++ mjoin (rows <$> others) |}.

Section PatientRow.
Context {num St : Type} `{Lymph num St}.

Definition create_patient_row
    (pattern : gmap string (gmap string (option bool))) (t_stage : string)
    (midline_ext : option bool) (make_unilateral : bool) : result DataFrame :=
  if make_unilateral then
    ipsi ← dict_get pattern "ipsi";
    let patient_row := single_row (flatten "prev" (Flat ipsi)) in
    if decide (t_stage <> "early/late") then
      Ok (set_column patient_row ["info"; "t_stage"] (CStr t_stage))
    else
      let early_tstage :=
        set_column patient_row ["info"; "t_stage"] (CStr "early") in
      let late_tstage :=
        set_column patient_row ["info"; "t_stage"] (CStr "late") in
      Ok (concat early_tstage [late_tstage])
  else if decide (t_stage <> "early/late") then
    let patient_row := single_row (flatten "prev" (Sided pattern)) in
    let patient_row :=
      set_column patient_row ["info"; "tumor"; "t_stage"] (CStr t_stage) in
    match midline_ext with
    | Some v =>
        Ok (set_column patient_row ["info"; "tumor"; "midline_extension"]
              (CBool v))
    | None =>
        let with_midline_ext :=
          set_column patient_row ["info"; "tumor"; "midline_extension"]
            (CBool true) in
        let without_midline_ext :=
          set_column patient_row ["info"; "tumor"; "midline_extension"]
            (CBool false) in
        Ok (concat with_midline_ext [without_midline_ext])
    end
  else
    let patient_row := single_row (flatten "prev" (Sided pattern)) in
    let early_tstage :=
      set_column patient_row ["info"; "tumor"; "t_stage"] (CStr "early") in
    let late_tstage :=
      set_column patient_row ["info"; "tumor"; "t_stage"] (CStr "late") in
    match midline_ext with
    | Some v =>
        let early_tstage :=
          set_column early_tstage ["info"; "tumor"; "midline_extension"]
            (CBool v) in
        let late_tstage :=
          set_column late_tstage ["info"; "tumor"; "midline_extension"]
            (CBool v) in
        Ok (concat early_tstage [late_tstage])
    | None =>
        let ext := ["info"; "tumor"; "midline_extension"] in
        let early_with_midline_ext :=
          set_column early_tstage ext (CBool true) in
        let early_without_midline_ext :=
          set_column early_tstage ext (CBool false) in
        let late_with_midline_ext := set_column late_tstage ext (CBool true) in
        let late_without_midline_ext :=
          set_column late_tstage ext (CBool false) in
        Ok (concat early_with_midline_ext
              [late_with_midline_ext; early_without_midline_ext;
               late_without_midline_ext])
    end.
End PatientRow.

(** ** Predicted prevalences *)

Section Prediction.
Context {num St : Type} `{Number num} `{Lymph num St}.

(** [model.modalities = value] and [model.patient_data = value]. *)
Definition set_modalities (model : LymphModel num St)
    (value : gmap string (list num)) : LymphModel num St :=
  mkLymphModel (class_of model) value (patient_data model) (internals model).

Definition set_patient_data (model : LymphModel num St) (value : DataFrame)
    : LymphModel num St :=
  mkLymphModel (class_of model) (modalities model) (Some value)
    (internals model).

(** [loaded_model.check_and_assign(given_params)], as a change of the
    state of the object. *)
Definition assign (loaded_model : LymphModel num St) (given_params : list num)
    : LymphModel num St :=
  mkLymphModel (class_of loaded_model) (modalities loaded_model)
    (patient_data loaded_model) (check_and_assign loaded_model given_params).

(** The expression that [compute_predicted_prevalence] repeats for each
    stage:
    [calculate_midline_ext_prob(diag_time_dists[t_stage].pmf,
       [given_params[-2]] * len(diag_time_dists[t_stage].pmf))]. *)
Definition stage_midline_ext_prob (loaded_model : LymphModel num St)
    (given_params : list num) (t_stage : string) : result num :=
  pmf ← dict_get (diag_time_dists loaded_model) t_stage;
  rate ← getitem_back given_params 2;
  calculate_midline_ext_prob pmf (replicate (length pmf) rate).

(** Returns the prevalence and the model as the call leaves it. *)
Definition compute_predicted_prevalence (loaded_model : LymphModel num St)
    (given_params : list num) (midline_ext : option bool) (t_stage : string)
    (midline_ext_prob : option num) (early_prob : num)
    : result (num * LymphModel num St) :=
  if decide (class_of loaded_model = MidlineBilateral) then
    let loaded_model := assign loaded_model given_params in
    prevalence ←
      match midline_ext with
      | None =>
          if decide (t_stage = "early/late") then
            let early_llhs :=
              likelihood_pair loaded_model given_params (Some ["early"]) true in
            let late_llhs :=
              likelihood_pair loaded_model given_params (Some ["late"]) true in
            Ok (early_prob [*] fst early_llhs [+]
                early_prob [*] snd early_llhs [+]
                (one [-] early_prob) [*] fst late_llhs [+]
                (one [-] early_prob) [*] snd late_llhs)
          else
            let llhs := likelihood_pair loaded_model given_params None true in
            Ok (fst llhs [+] snd llhs)
      | Some true =>
          if decide (t_stage = "early/late") then
            midline_ext_prob_early ←
              stage_midline_ext_prob loaded_model given_params "early";
            midline_ext_prob_late ←
              stage_midline_ext_prob loaded_model given_params "late";
            Ok (early_prob [*]
                likelihood loaded_model given_params (Some ["early"]) true [/]
                midline_ext_prob_early [+]
                (one [-] early_prob) [*]
                likelihood loaded_model given_params (Some ["late"]) true [/]
                midline_ext_prob_late)
          else
            midline_ext_prob ←
              stage_midline_ext_prob loaded_model given_params t_stage;
            Ok (likelihood loaded_model given_params None true [/]
                midline_ext_prob)
      | Some false =>
          if decide (t_stage = "early/late") then
            midline_ext_prob_early ←
              stage_midline_ext_prob loaded_model given_params "early";
            midline_ext_prob_late ←
              stage_midline_ext_prob loaded_model given_params "late";
            Ok (early_prob [*]
                likelihood loaded_model given_params (Some ["early"]) true [/]
                (one [-] midline_ext_prob_early) [+]
                (one [-] early_prob) [*]
                likelihood loaded_model given_params (Some ["late"]) true [/]
                (one [-] midline_ext_prob_late))
          else
            midline_ext_prob ←
              stage_midline_ext_prob loaded_model given_params t_stage;
            Ok (likelihood loaded_model given_params None true [/]
                (one [-] midline_ext_prob))
      end;
    Ok (prevalence, loaded_model)
  else if decide (t_stage = "early/late") then
    Ok (early_prob [*]
        likelihood loaded_model given_params (Some ["early"]) false [+]
        (one [-] early_prob) [*]
        likelihood loaded_model given_params (Some ["late"]) false,
        loaded_model)
  else Ok (likelihood loaded_model given_params None false, loaded_model).

(** [list(generate_predicted_prevalences(...))]: the values yielded, in
    order, and the model as the generator leaves it. *)
Definition generate_predicted_prevalences
    (pattern : option (gmap string (gmap string (option bool))))
    (model : LymphModel num St) (samples : list (list num))
    (t_stage : string) (midline_ext : option bool)
    (midline_ext_prob : option num) (modality_spsn : option (list num))
    (invert : bool) (early_prob : num)
    : result (list num * LymphModel num St) :=
  lnls ← get_lnls model;
  let pattern := complete_pattern pattern lnls in
  let model :=
    match modality_spsn with
    | None => set_modalities model {[ "prev" := [one; one] ]}
    | Some spsn => set_modalities model {[ "prev" := spsn ]}
    end in
  let is_unilateral := bool_decide (class_of model = Unilateral) in
  patient_row ← create_patient_row pattern t_stage midline_ext is_unilateral;
  let model := set_patient_data model patient_row in
  for_each samples
    (fun state sample =>
       predicted ←
         compute_predicted_prevalence (snd state) sample midline_ext t_stage
           midline_ext_prob early_prob;
       let prevalence := fst predicted in
       Ok (fst state ++ [if invert then one [-] prevalence else prevalence],
           snd predicted))
    ([], model).

(** ** Predicted risks *)

(** [list(predicted_risk(...))]. *)
Definition predicted_risk
    (involvement : gmap string (gmap string (option bool)))
    (model : LymphModel num St) (samples : list (list num))
    (t_stage : string) (midline_ext : bool)
    (given_diagnosis : option (gmap string (gmap string (option bool))))
    (given_diagnosis_spsn : option (list num)) (invert : bool)
    : result (list num * LymphModel num St) :=
  lnls ← get_lnls model;
  let involvement := clean_pattern (Some involvement) lnls in
  let given_diagnosis := clean_pattern given_diagnosis lnls in
  let model :=
    match given_diagnosis_spsn with
    | Some spsn => set_modalities model {[ "risk" := spsn ]}
    | None => set_modalities model {[ "risk" := [one; one] ]}
    end in
  match class_of model with
  | Unilateral =>
      ipsi ← dict_get given_diagnosis "ipsi";
      let given_diagnosis : gmap string pattern_arg :=
        {[ "risk" := Flat ipsi ]} in
      yielded ←
        for_each samples
          (fun yielded sample =>
             involvement_ipsi ← dict_get involvement "ipsi";
             let risk :=
               risk model (Flat involvement_ipsi) sample given_diagnosis
                 t_stage None in
             Ok (yielded ++ [if invert then one [-] risk else risk]))
          [];
      Ok (yielded, model)
  | Bilateral | MidlineBilateral =>
      let given_diagnosis : gmap string pattern_arg :=
        {[ "risk" := Sided given_diagnosis ]} in
      yielded ←
        for_each samples
          (fun yielded sample =>
             let risk :=
               risk model (Sided involvement) sample given_diagnosis t_stage
                 (Some midline_ext) in
             Ok (yielded ++ [if invert then one [-] risk else risk]))
          [];
      Ok (yielded, model)
  | OtherClass => Raise TypeError
  end.

(** ** Thinning *)

(** Walk the list and keep an element whenever the countdown [skip] has
    reached 0, then count down from [n - 1] again. *)
Fixpoint every_nth {A : Type} (n skip : nat) (l : list A) : list A :=
  match l with
  | [] => []
  | x :: l' =>
      match skip with
      | O => x :: every_nth n (pred n) l'
      | S skip' => every_nth n skip' l'
      end
  end.

(** [samples[::step]]: a step of 0 is a [ValueError], a negative step
    walks backwards from the last element. *)
Definition slice_step {A : Type} (samples : list A) (step : Z)
    : result (list A) :=
  if decide (step = 0%Z) then Raise ValueError
  else if decide (0 < step)%Z then Ok (every_nth (Z.to_nat step) 0 samples)
  else Ok (every_nth (Z.to_nat (- step)) 0 (reverse samples)).

(** [prevs_arr] of [main] for one scenario (lines 512 to 526), the
    empirical probabilities being given. *)
Definition main_prevs_arr (model : LymphModel num St)
    (samples : list (list num)) (thin : Z)
    (pattern : option (gmap string (gmap string (option bool))))
    (t_stage : string) (midline_ext : option bool)
    (midline_ext_prob : option num) (modality_spsn : option (list num))
    (invert : bool) (early_prob : num)
    : result (list num * LymphModel num St) :=
  thinned ← slice_step samples thin;
  generate_predicted_prevalences pattern model thinned t_stage midline_ext
    midline_ext_prob modality_spsn invert early_prob.

(** [risks_arr] of [main] for one scenario (lines 171 to 183). *)
Definition main_risks_arr (model : LymphModel num St)
    (samples : list (list num)) (thin : Z)
    (involvement : gmap string (gmap string (option bool)))
    (t_stage : string) (midline_ext : bool)
    (given_diagnosis : option (gmap string (gmap string (option bool))))
    (given_diagnosis_spsn : option (list num)) (invert : bool)
    : result (list num * LymphModel num St) :=
  thinned ← slice_step samples thin;
  predicted_risk involvement model thinned t_stage midline_ext
    given_diagnosis given_diagnosis_spsn invert.

(** The marginal that the specification describes for an unknown midline
    extension: the two likelihoods weighted by [midline_ext_prob] and its
    complement. *)
Definition weighted_midline_marginal (midline_ext_prob : num)
    (llhs : num * num) : num :=
  midline_ext_prob [*] fst llhs [+] (one [-] midline_ext_prob) [*] snd llhs.

(** A stream with every value [v] replaced by [1 - v]. *)
Definition inverted (stream : list num * LymphModel num St)
    : list num * LymphModel num St :=
  ((fun v => one [-] v) <$> fst stream, snd stream).

(** [v] is the value that [generate_predicted_prevalences] yields for
    [sample], from some state of the model. *)
Definition yields_for (midline_ext : option bool) (t_stage : string)
    (midline_ext_prob : option num) (early_prob : num) (invert : bool)
    (sample : list num) (v : num) : Prop :=
  exists loaded_model prevalence left_model,
    compute_predicted_prevalence loaded_model sample midline_ext t_stage
      midline_ext_prob early_prob = Ok (prevalence, left_model)
    /\ v = if invert then one [-] prevalence else prevalence.
End Prediction.

(** ** Empirical probabilities *)

(** [data[m]] for a row selector: a boolean Series keeps the rows that it
    marks; a bare [bool] is looked up as a column label, which no table
    here has. *)
Definition getitem_mask (data : DataFrame) (m : mask) : result DataFrame :=
  match m with
  | Scalar _ => Raise KeyError
  | Series keep =>
      Ok {| nlevels := nlevels data;
            columns := columns data;
            rows := select_rows (rows data) keep |}
  end.

(** [a / b] for two Python integers (here two lengths): the float nearest
    to the quotient, for a divisor that is not 0. *)
Class TrueDiv (num : Type) : Type := {
  truediv : nat -> nat -> num;
}.

#[global] Instance Qc_truediv : TrueDiv Qc := {|
  truediv := fun a b => Q2Qc (Z.of_nat a # Pos.of_nat b);
|}.

Section EmpiricalProbabilities.
Context {num : Type} `{TrueDiv num}.

(** [len(matching) / len(eligible)]. *)
Definition len_ratio (matching eligible : DataFrame) : result num :=
  if decide (len eligible = 0) then Raise (OtherError "ZeroDivisionError")
  else Ok (truediv (len matching) (len eligible)).

Definition get_midline_ext_prob (data : DataFrame) (t_stage : string)
    : result (option num) :=
  if decide (nlevels data = 2) then Ok None
  else
    has_matching_t_stage ← does_t_stage_match data t_stage;
    eligible ← getitem_mask data has_matching_t_stage;
    has_matching_midline_ext ← does_midline_ext_match eligible (Some true);
    matching_data ← getitem_mask eligible has_matching_midline_ext;
    Some <$> len_ratio matching_data eligible.

Definition get_early_prob (data : DataFrame) : result num :=
  has_matching_t_stage ← does_t_stage_match data "early";
  matching_data ← getitem_mask data has_matching_t_stage;
  len_ratio matching_data data.
End EmpiricalProbabilities.

(** ** One scenario of [main] *)

Section Scenario.
Context {num St : Type} `{Number num} `{TrueDiv num} `{Lymph num St}.

(** The body of the loop of [main] over the scenarios (lines 512 to 535),
    without the storage: the array of the prevalences, [num_match] and
    [num_total], and the model as the scenario leaves it.  The arguments
    of the call of the generator are evaluated first, in their order. *)
Definition main_scenario (model : LymphModel num St)
    (samples : list (list num)) (thin : Z) (data : DataFrame)
    (pattern : option (gmap string (gmap string (option bool))))
    (t_stage modality : string) (midline_ext : option bool)
    (modality_spsn : option (list num)) (invert : bool)
    : result (list num * (nat * nat) * LymphModel num St) :=
  thinned ← slice_step samples thin;
  midline_ext_prob ← get_midline_ext_prob data t_stage;
  early_prob ← get_early_prob data;
  prevs ←
    generate_predicted_prevalences pattern model thinned t_stage midline_ext
      midline_ext_prob modality_spsn invert early_prob;
  lnls ← get_lnls (snd prevs);
  observed ←
    compute_observed_prevalence pattern data lnls t_stage modality midline_ext
      invert;
  Ok (fst prevs, observed, snd prevs).
End Scenario.

(** ** Counting rows *)

(** The rows of a table that pass a test, and the tests that the selectors
    make on a row. *)
Definition count_rows (test : gmap (list string) cell -> bool)
    (data : DataFrame) : nat :=
  length (filter (fun r => test r = true) (rows data)).

Definition t_stage_key (data : DataFrame) : list string :=
  if decide (nlevels data = 3) then ["info"; "tumor"; "t_stage"]
  else ["info"; "t_stage"].

Definition row_has_t_stage (data : DataFrame) (t_stage : string)
    (r : gmap (list string) cell) : bool :=
  if decide (t_stage = "early/late")
  then cell_isin ["early"; "late"] (cell_at r (t_stage_key data))
  else cell_is_str t_stage (cell_at r (t_stage_key data)).

Definition row_has_midline_ext (v : bool) (r : gmap (list string) cell)
    : bool :=
  cell_is_bool v (cell_at r ["info"; "tumor"; "midline_extension"]).

(** A selector that has one entry for each of [n] rows, or is a bare
    [bool]. *)
Definition mask_fits (n : nat) (m : mask) : Prop :=
  match m with
  | Scalar _ => True
  | Series l => length l = n
  end.

(** The test that [get_match_idx] makes on a row: all constrained levels
    agree (normal mode), or some constrained level disagrees (inverted
    mode). *)
Definition row_matches (pattern : gmap string (option bool))
    (lnls : list string) (invert : bool) (r : gmap (list string) cell)
    : bool :=
  if invert
  then existsb (fun level => level_test true level r)
         (constrained_levels pattern lnls)
  else forallb (fun level => level_test false level r)
         (constrained_levels pattern lnls).

(** The stages and the midline extensions that the synthetic patients of
    a scenario stand for. *)
Definition stages_of (t_stage : string) : list string :=
  if decide (t_stage = "early/late") then ["early"; "late"] else [t_stage].

Definition exts_of (midline_ext : option bool) : list bool :=
  match midline_ext with
  | Some v => [v]
  | None => [true; false]
  end.

(** A selector that is computed from the rows of a table one by one: a
    bare [bool] whatever the rows are, or a Series with the value of one
    test on each row. *)
Definition rowwise {R : Type} (m : list R -> mask) : Prop :=
  (exists b, forall l, m l = Scalar b)
  \/ (exists f : R -> bool, forall l, m l = Series (f <$> l)).

(** ** A toy model over the rationals *)

Definition quarter : Qc := Q2Qc (1 # 4).
Definition half : Qc := Q2Qc (1 # 2).

(** The toy [flatten]: column keys (modality, level) for the pattern of
    one side and (modality, side, level) for a pattern of both. *)
Definition flatten_flat (modality : string)
    (pattern : gmap string (option bool)) : list (list string * cell) :=
  (fun kv => ([modality; fst kv], cell_of (snd kv))) <$> map_to_list pattern.

Definition flatten_sided (modality : string)
    (pattern : gmap string (gmap string (option bool)))
    : list (list string * cell) :=
  mjoin ((fun side =>
            (fun kv => ([modality; fst side; fst kv], cell_of (snd kv)))
            <$> map_to_list (snd side))
         <$> map_to_list pattern).

(** The likelihood of a sample is its first parameter, the pair of
    likelihoods with and without midline extension is (1/2, 1/4), the risk
    of a sample is its first parameter. *)
#[global] Instance toy_lymph : Lymph Qc unit := {|
  get_lnls := fun _ => Ok ["II"; "III"];
  flatten := fun modality pattern =>
    match pattern with
    | Flat pattern => flatten_flat modality pattern
    | Sided pattern => flatten_sided modality pattern
    end;
  check_and_assign := fun _ _ => tt;
  diag_time_dists := fun _ =>
    {[ "early" := [half; half]; "late" := [quarter; quarter; half] ]};
  likelihood := fun _ given_params _ _ => default 0%Qc (head given_params);
  likelihood_pair := fun _ _ _ _ => (half, quarter);
  risk := fun _ _ given_params _ _ _ => default 0%Qc (head given_params);
|}.

Definition toy_model (class : model_class) : LymphModel Qc unit :=
  mkLymphModel class ∅ None tt.

Definition toy_samples : list (list Qc) :=
  [[quarter; half]; [half; half]; [half; quarter]; [quarter; quarter];
   [1%Qc; half]].

(** ** Example tables *)

(** The example of the docstring of [get_match_idx]. *)
Definition docstring_pattern : gmap string (option bool) :=
  {[ "II" := Some true; "III" := None ]}.

Definition docstring_data : DataFrame :=
  {| nlevels := 1;
     columns := [["II"]; ["III"]];
     rows := [ {[ ["II"] := CBool true; ["III"] := CBool false ]};
               {[ ["II"] := CBool false; ["III"] := CBool false ]} ] |}.

(** A unilateral table (two header rows) of four patients; the third one
    has no diagnosis under [max_llh]. *)
Definition unilateral_table : DataFrame :=
  {| nlevels := 2;
     columns := [["info"; "t_stage"]; ["max_llh"; "II"]; ["max_llh"; "III"]];
     rows := [ {[ ["info"; "t_stage"] := CStr "early";
                  ["max_llh"; "II"] := CBool true;
                  ["max_llh"; "III"] := CBool false ]};
               {[ ["info"; "t_stage"] := CStr "late";
                  ["max_llh"; "II"] := CBool true;
                  ["max_llh"; "III"] := CBool false ]};
               {[ ["info"; "t_stage"] := CStr "early" ]};
               {[ ["info"; "t_stage"] := CStr "early";
                  ["max_llh"; "II"] := CBool false;
                  ["max_llh"; "III"] := CBool false ]} ] |}.

(** A bilateral table (three header rows) of three patients. *)
Definition bilateral_table : DataFrame :=
  {| nlevels := 3;
     columns := [["info"; "tumor"; "t_stage"];
                 ["info"; "tumor"; "midline_extension"];
                 ["max_llh"; "ipsi"; "II"]; ["max_llh"; "contra"; "II"]];
     rows := [ {[ ["info"; "tumor"; "t_stage"] := CStr "early";
                  ["info"; "tumor"; "midline_extension"] := CBool true;
                  ["max_llh"; "ipsi"; "II"] := CBool true;
                  ["max_llh"; "contra"; "II"] := CBool false ]};
               {[ ["info"; "tumor"; "t_stage"] := CStr "early";
                  ["info"; "tumor"; "midline_extension"] := CBool false;
                  ["max_llh"; "ipsi"; "II"] := CBool true;
                  ["max_llh"; "contra"; "II"] := CBool true ]};
               {[ ["info"; "tumor"; "t_stage"] := CStr "late";
                  ["info"; "tumor"; "midline_extension"] := CBool true;
                  ["max_llh"; "ipsi"; "II"] := CBool false;
                  ["max_llh"; "contra"; "II"] := CBool false ]} ] |}.

(** A table of three header rows whose modality [max_llh] was recorded
    for the ipsilateral side only: one early patient. *)
Definition ipsi_only_table : DataFrame :=
  {| nlevels := 3;
     columns := [["info"; "tumor"; "t_stage"];
                 ["info"; "tumor"; "midline_extension"];
                 ["max_llh"; "ipsi"; "II"]];
     rows := [ {[ ["info"; "tumor"; "t_stage"] := CStr "early";
                  ["info"; "tumor"; "midline_extension"] := CBool false;
                  ["max_llh"; "ipsi"; "II"] := CBool true ]} ] |}.

(** * Properties *)

(** ** Loops *)

Lemma for_each_app {S A : Type} (xs ys : list A) (body : S -> A -> result S)
    (s : S) :
  for_each (xs ++ ys) body s = s' ← for_each xs body s; for_each ys body s'.
Proof.
  revert s. induction xs as [|x xs IH]; intros s; simpl; [done|].
  destruct (body s x) as [s'|e]; simpl; [apply IH | done].
Qed.

Lemma for_each_simulation {S S' A : Type} (R : S -> S' -> Prop)
    (body : S -> A -> result S) (body' : S' -> A -> result S')
    (xs : list A) (s : S) (s' : S') :
  (forall t t' x, R t t' -> result_rel R (body t x) (body' t' x)) ->
  R s s' ->
  result_rel R (for_each xs body s) (for_each xs body' s').
Proof.
  intros Hstep. revert s s'.
  induction xs as [|x xs IH]; intros s s' Hs; simpl; [done|].
  specialize (Hstep s s' x Hs).
  destruct (body s x) as [t|e], (body' s' x) as [t'|e']; simpl in *;
    try done.
  by apply IH.
Qed.

Lemma result_rel_fmap {A B : Type} (f : B -> A) (a : result A)
    (b : result B) :
  result_rel (fun x y => x = f y) a b -> a = f <$> b.
Proof. destruct a, b; simpl; intros; by simplify_eq. Qed.

Lemma range_S (n : nat) : range (S n) = range n ++ [n].
Proof. unfold range. by rewrite seq_S. Qed.

Lemma getitem_entry {num : Type} `{Number num} (l : list num) (i : nat) :
  i < length l -> getitem l i = Ok (entry l i).
Proof.
  intros Hi. unfold getitem, entry.
  destruct (lookup_lt_is_Some_2 l i Hi) as [x ->]. done.
Qed.

(** ** The cumulative midline-extension probability *)

Section MidlineExtProbFacts.
Context {num : Type} `{Number num}.

Lemma no_extension_until_prod (rates : list num) (t : nat) :
  t <= length rates ->
  no_extension_until rates t
  = Ok (big_prod (fun s => one [-] entry rates s) t).
Proof.
  unfold no_extension_until.
  induction t as [|t IH]; intros Ht; [done|].
  rewrite range_S, for_each_app, IH by lia. simpl.
  rewrite getitem_entry by lia. done.
Qed.

Lemma big_sum_ext (f g : nat -> num) (n : nat) :
  (forall t, t < n -> f t = g t) -> big_sum f n = big_sum g n.
Proof.
  induction n as [|n IH]; intros Hfg; simpl; [done|].
  rewrite IH by (intros; apply Hfg; lia). rewrite Hfg by lia. done.
Qed.

Lemma big_prod_ext (f g : nat -> num) (n : nat) :
  (forall t, t < n -> f t = g t) -> big_prod f n = big_prod g n.
Proof.
  induction n as [|n IH]; intros Hfg; simpl; [done|].
  rewrite IH by (intros; apply Hfg; lia). rewrite Hfg by lia. done.
Qed.

(** The outer loop, in the order in which the code multiplies. *)
Lemma cumulative_probability_loop (diag_prob rates : list num) (n : nat) :
  n <= length diag_prob -> n <= S (length rates) ->
  for_each (range n)
    (fun cumulative_probability diagnosis_timestep =>
       at_diagnosis ← no_extension_until rates diagnosis_timestep;
       p ← getitem diag_prob diagnosis_timestep;
       Ok (cumulative_probability [+] at_diagnosis [*] p))
    zero
  = Ok (big_sum
          (fun t => big_prod (fun s => one [-] entry rates s) t [*]
                    entry diag_prob t) n).
Proof.
  induction n as [|n IH]; intros Hn Hr; [done|].
  rewrite range_S, for_each_app, IH by lia. simpl.
  rewrite no_extension_until_prod by lia. simpl.
  rewrite getitem_entry by lia. done.
Qed.

Lemma calculate_midline_ext_prob_sum (diag_prob rates : list num) :
  length diag_prob <= S (length rates) ->
  calculate_midline_ext_prob diag_prob rates
  = Ok (one [-] big_sum
                 (fun t => big_prod (fun s => one [-] entry rates s) t [*]
                           entry diag_prob t)
                 (length diag_prob)).
Proof.
  intros Hr. unfold calculate_midline_ext_prob.
  rewrite cumulative_probability_loop by lia. done.
Qed.

Lemma big_prod_one (f : nat -> num) (n : nat) :
  one [*] one = one -> (forall s, s < n -> f s = one) -> big_prod f n = one.
Proof.
  intros H1 Hf. induction n as [|n IH]; simpl; [done|].
  rewrite IH by (intros; apply Hf; lia). rewrite Hf by lia. done.
Qed.

Lemma entry_all_zero (rates : list num) (s : nat) :
  Forall (fun r => r = zero) rates -> entry rates s = zero.
Proof.
  intros Hz. unfold entry. destruct (rates !! s) as [r|] eqn:Hs; [|done].
  simpl. by apply (Forall_lookup_1 _ _ _ _ Hz Hs).
Qed.

(** C3: for a pmf of length T and at least T rates,
    [calculate_midline_ext_prob] returns (it does not raise) one minus
    the sum over t < T of [diag_prob[t]] times the product over s < t of
    [1 - rates[s]]; zero entries of the pmf need no special care, the
    function being total on such inputs.  Consequently, when every rate
    is 0 and the pmf entries sum to 1, the result is 0.  The only laws
    used are commutativity of the product for the first part and
    [1 * x = x], [1 - 0 = 1], [1 - 1 = 0] for the second. *)
Theorem calculate_midline_ext_prob_closed_form
    (diag_prob rates : list num) :
  (forall x y : num, x [*] y = y [*] x) ->
  length diag_prob <= length rates ->
  calculate_midline_ext_prob diag_prob rates
  = Ok (cumulative_midline_probability diag_prob rates)
  /\ ((forall x : num, one [*] x = x) ->
      one [-] zero = one ->
      one [-] one = zero ->
      Forall (fun r => r = zero) rates ->
      big_sum (entry diag_prob) (length diag_prob) = one ->
      calculate_midline_ext_prob diag_prob rates = Ok zero).
Proof.
  intros Hcomm Hlen.
  rewrite calculate_midline_ext_prob_sum by lia.
  unfold cumulative_midline_probability. split.
  - f_equal. f_equal. apply big_sum_ext. intros t _. apply Hcomm.
  - intros Hone Hsub0 Hsub1 Hrates Hsum. f_equal.
    rewrite (big_sum_ext _ (entry diag_prob)), Hsum; [done|].
    intros t _. rewrite big_prod_one; [apply Hone .. |].
    intros s _. by rewrite entry_all_zero.
Qed.

(** C4 (as amended): when the pmf has all its mass at step 0, the result
    is 0: no step has gone by at diagnosis, so the empty product 1 is all
    that is subtracted from 1.  This holds for the rates whose running
    products are absorbed: for each later step [t], the product of
    [1 - rates[s]] over [s < t], times the zero entry of the pmf, leaves
    the sum 1 as it is.  In binary64 that is so exactly when the product
    is a finite number; an infinite product or one that is not a number
    makes the result not a number.  The other laws used are [1 * 1 = 1],
    [0 + 1 = 1] and [1 - 1 = 0], which binary64 satisfies. *)
Theorem calculate_midline_ext_prob_mass_at_step_0
    (diag_prob rates : list num) :
  one [*] one = one ->
  zero [+] one = one ->
  one [-] one = zero ->
  length diag_prob <= S (length rates) ->
  diag_prob !! 0 = Some one ->
  (forall t p, diag_prob !! S t = Some p -> p = zero) ->
  (forall t, 0 < t < length diag_prob ->
     one [+] big_prod (fun s => one [-] entry rates s) t [*] zero = one) ->
  calculate_midline_ext_prob diag_prob rates = Ok zero.
Proof.
  intros Hmul1 Hadd01 Hsub Hlen Hfirst Hrest Habsorbed.
  rewrite calculate_midline_ext_prob_sum by lia. f_equal.
  destruct (length diag_prob) as [|n] eqn:Hn.
  { destruct diag_prob; simplify_eq. }
  enough (Hsum : forall m, m <= n ->
            big_sum
              (fun t => big_prod (fun s => one [-] entry rates s) t [*]
                        entry diag_prob t) (S m) = one)
    by (by rewrite Hsum).
  intros m Hm. induction m as [|m IH].
  - simpl. unfold entry. rewrite Hfirst. simpl. by rewrite Hmul1.
  - change (big_sum ?f (S (S m))) with (big_sum f (S m) [+] f (S m)).
    rewrite IH by lia.
    assert (entry diag_prob (S m) = zero) as ->.
    { unfold entry. destruct (diag_prob !! S m) as [p|] eqn:Hp; [|done].
      simpl. by apply (Hrest m). }
    apply Habsorbed. lia.
Qed.
End MidlineExtProbFacts.

Lemma calculate_midline_ext_prob_closed_form_witness :
  calculate_midline_ext_prob [Q2Qc (1 # 4); 0%Qc; Q2Qc (3 # 4)]
    [0%Qc; 0%Qc; 0%Qc]
  = Ok (cumulative_midline_probability [Q2Qc (1 # 4); 0%Qc; Q2Qc (3 # 4)]
          [0%Qc; 0%Qc; 0%Qc])
  /\ calculate_midline_ext_prob [Q2Qc (1 # 4); 0%Qc; Q2Qc (3 # 4)]
       [0%Qc; 0%Qc; 0%Qc]
     = Ok 0%Qc.
Proof.
  destruct (calculate_midline_ext_prob_closed_form (H := Qc_number)
              [Q2Qc (1 # 4); 0%Qc; Q2Qc (3 # 4)] [0%Qc; 0%Qc; 0%Qc])
    as [Hform Hzero].
  - exact Qcmult_comm.
  - simpl. lia.
  - split; [exact Hform|]. apply Hzero.
    + exact Qcmult_1_l.
    + apply Qc_is_canon. reflexivity.
    + apply Qc_is_canon. reflexivity.
    + repeat constructor.
    + apply Qc_is_canon. reflexivity.
Defined.

Lemma calculate_midline_ext_prob_mass_at_step_0_witness :
  calculate_midline_ext_prob [1%Qc; 0%Qc; 0%Qc] [half; half; half] = Ok 0%Qc
  /\ calculate_midline_ext_prob [1%float; 0%float; 0%float]
       [0.5%float; 0.25%float; 0.5%float]
     = Ok 0%float.
Proof.
  split.
  - apply (calculate_midline_ext_prob_mass_at_step_0 (H := Qc_number)).
    + apply Qc_is_canon. reflexivity.
    + apply Qc_is_canon. reflexivity.
    + apply Qc_is_canon. reflexivity.
    + simpl. lia.
    + reflexivity.
    + intros [|[|t]] p Hp; simpl in Hp; by simplify_eq.
    + intros [|[|[|t]]] Ht; simpl in Ht; try lia;
        apply Qc_is_canon; reflexivity.
  - apply (calculate_midline_ext_prob_mass_at_step_0 (H := float_number)).
    + reflexivity.
    + reflexivity.
    + reflexivity.
    + simpl. lia.
    + reflexivity.
    + intros [|[|t]] p Hp; simpl in Hp; by simplify_eq.
    + intros [|[|[|t]]] Ht; simpl in Ht; try lia; reflexivity.
Defined.

(** The condition on the products is needed: in binary64, with a rate
    that is infinite or not a number, the product times the zero entry of
    the pmf is not a number, and so is the result. *)
Example calculate_midline_ext_prob_not_a_number :
  calculate_midline_ext_prob [1%float; 0%float] [infinity] = Ok nan
  /\ calculate_midline_ext_prob [1%float; 0%float] [nan] = Ok nan.
Proof. split; reflexivity. Qed.

(** C4 (as stated) fails: with all the mass at step 0 and a rate of 1/2
    at step 0 the result is 0, not 1/2. *)
Lemma calculate_midline_ext_prob_mass_at_step_0_not_rate :
  [half; half; half] !! 0 = Some half
  /\ calculate_midline_ext_prob [1%Qc; 0%Qc; 0%Qc] [half; half; half]
     <> Ok half.
Proof.
  split; [reflexivity|].
  intros Heq. vm_compute in Heq. discriminate Heq.
Qed.

(** ** Matching a pattern against a table *)

Lemma get_match_idx_cons (start : mask) (pattern : gmap string (option bool))
    (data : DataFrame) (lnl : string) (lnls : list string) (invert : bool) :
  get_match_idx start pattern data (lnl :: lnls) invert
  = match constraint_of pattern lnl with
    | None => get_match_idx start pattern data lnls invert
    | Some v =>
        series ← column data [lnl];
        get_match_idx
          (if invert
           then mask_or start
                  (Series ((fun c => negb (cell_is_bool v c)) <$> series))
           else mask_and start (Series (cell_is_bool v <$> series)))
          pattern data lnls invert
    end.
Proof.
  unfold get_match_idx. simpl.
  destruct (constraint_of pattern lnl) as [v|]; [|done].
  destruct (column data [lnl]) as [series|e]; simpl; [|done].
  by destruct invert.
Qed.

(** The loop of [get_match_idx] is the fold of the specification. *)
Lemma get_match_idx_pattern_match_mask (start : mask)
    (pattern : gmap string (option bool)) (data : DataFrame)
    (lnls : list string) (invert : bool) :
  get_match_idx start pattern data lnls invert
  = pattern_match_mask start pattern data lnls invert.
Proof.
  revert start. induction lnls as [|lnl lnls IH]; intros start; [done|].
  rewrite get_match_idx_cons. unfold pattern_match_mask, constrained_levels.
  simpl. destruct (constraint_of pattern lnl) as [v|]; simpl; [|apply IH].
  unfold column. destruct (decide ([lnl] ∈ columns data)); simpl; [|done].
  rewrite IH. unfold pattern_match_mask, constrained_levels, level_test.
  destruct invert; simpl.
  - by rewrite <- !list_fmap_compose.
  - by rewrite <- !list_fmap_compose.
Qed.

(** Levels without a constraint leave the selector as it is. *)
Lemma get_match_idx_unconstrained (start : mask)
    (pattern : gmap string (option bool)) (data : DataFrame)
    (lnls : list string) (invert : bool) :
  Forall (fun lnl => constraint_of pattern lnl = None) lnls ->
  get_match_idx start pattern data lnls invert = Ok start.
Proof.
  induction 1 as [|lnl lnls Hlnl _ IH]; [done|].
  by rewrite get_match_idx_cons, Hlnl.
Qed.

(** Row by row: the fold computes the conjunction (disjunction) of the
    tests of the constrained levels together with the start. *)
Lemma pattern_match_mask_at (pattern : gmap string (option bool))
    (data : DataFrame) (invert : bool) (levels : list (string * bool))
    (start m : mask) (i : nat) (r : gmap (list string) cell) (s : bool) :
  for_each levels
    (fun matched level =>
       if decide ([fst level] ∈ columns data) then
         let test := Series (level_test invert level <$> rows data) in
         Ok (if invert then mask_or matched test else mask_and matched test)
       else Raise KeyError)
    start = Ok m ->
  rows data !! i = Some r ->
  mask_at start i = Some s ->
  mask_at m i
  = Some (if invert
          then s || existsb (fun level => level_test true level r) levels
          else s && forallb (fun level => level_test false level r) levels).
Proof.
  revert start s. induction levels as [|level levels IH]; intros start s.
  - simpl. intros [= <-] _ ->. destruct invert; f_equal.
    + by rewrite orb_false_r.
    + by rewrite andb_true_r.
  - simpl. destruct (decide ([fst level] ∈ columns data)); [|done]. simpl.
    intros Hrun Hrow Hstart.
    rewrite (IH _ (if invert then s || level_test true level r
                   else s && level_test false level r) Hrun Hrow).
    + destruct invert; f_equal.
      * by rewrite orb_assoc.
      * by rewrite andb_assoc.
    + destruct invert, start as [b|l]; simpl in *; simplify_eq;
        rewrite ?lookup_zip_with, ?list_lookup_fmap, ?Hrow, ?Hstart; done.
Qed.

(** C1: [get_match_idx] skips the levels that are absent from the pattern
    or unknown: it is the fold of the specification over the constrained
    levels only, a conjunction of equality tests and-folded onto the start
    in normal mode and a disjunction of inequality tests or-folded onto
    the start in inverted mode, so that, at every row, the result is the
    start and all tests, respectively the start or some test.  The caller
    [compute_observed_prevalence] starts from [not invert]: true in normal
    mode, false in inverted mode. *)
Theorem get_match_idx_fold (start : mask)
    (pattern : gmap string (option bool)) (data : DataFrame)
    (lnls : list string) (invert : bool) :
  get_match_idx start pattern data lnls invert
  = pattern_match_mask start pattern data lnls invert
  /\ (forall lnl, constraint_of pattern lnl = None ->
      get_match_idx start pattern data (lnl :: lnls) invert
      = get_match_idx start pattern data lnls invert)
  /\ (forall m i r s,
      get_match_idx start pattern data lnls invert = Ok m ->
      rows data !! i = Some r ->
      mask_at start i = Some s ->
      mask_at m i
      = Some (if invert
              then s || existsb (fun level => level_test true level r)
                          (constrained_levels pattern lnls)
              else s && forallb (fun level => level_test false level r)
                          (constrained_levels pattern lnls)))
  /\ (forall table sided eligible ipsi,
      nlevels table = 2 ->
      sided !! "ipsi" = Some ipsi ->
      do_lnls_match sided table eligible lnls invert
      = get_match_idx (Scalar (negb invert)) ipsi eligible lnls invert)
  /\ (forall table sided eligible ipsi contra eligible_ipsi eligible_contra,
      nlevels table <> 2 ->
      sided !! "ipsi" = Some ipsi ->
      sided !! "contra" = Some contra ->
      subframe eligible "ipsi" = Ok eligible_ipsi ->
      subframe eligible "contra" = Ok eligible_contra ->
      do_lnls_match sided table eligible lnls invert
      = (matched ← get_match_idx (Scalar (negb invert)) ipsi eligible_ipsi
                     lnls invert;
         get_match_idx matched contra eligible_contra lnls invert)).
Proof.
  split; [apply get_match_idx_pattern_match_mask|].
  split. { intros lnl Hlnl. by rewrite get_match_idx_cons, Hlnl. }
  split.
  { intros m i r s Hrun. rewrite get_match_idx_pattern_match_mask in Hrun.
    by apply pattern_match_mask_at. }
  split.
  - intros table sided eligible ipsi Hlevels Hipsi.
    unfold do_lnls_match, dict_get.
    destruct (decide (nlevels table = 2)); [|done]. by rewrite Hipsi.
  - intros table sided eligible ipsi contra eligible_ipsi eligible_contra
      Hlevels Hipsi Hcontra Hsub_ipsi Hsub_contra.
    unfold do_lnls_match, dict_get.
    destruct (decide (nlevels table = 2)); [done|]. simpl.
    rewrite Hipsi, Hcontra. simpl. rewrite Hsub_ipsi, Hsub_contra. simpl.
    destruct (get_match_idx _ ipsi _ _ _) as [matched|e]; simpl; [|done].
    by destruct (get_match_idx matched contra _ _ _).
Qed.

(** The run of the docstring of [get_match_idx]. *)
Example get_match_idx_docstring :
  get_match_idx (Scalar true) docstring_pattern docstring_data ["II"; "III"]
    false
  = Ok (Series [true; false]).
Proof. vm_compute. reflexivity. Qed.

Lemma get_match_idx_fold_witness :
  get_match_idx (Scalar true) docstring_pattern docstring_data ["II"; "III"]
    false
  = pattern_match_mask (Scalar true) docstring_pattern docstring_data
      ["II"; "III"] false
  /\ get_match_idx (Scalar true) docstring_pattern docstring_data
       ["III"; "II"; "III"] false
     = get_match_idx (Scalar true) docstring_pattern docstring_data
         ["II"; "III"] false
  /\ mask_at (Series [true; false]) 1 = Some false
  /\ do_lnls_match {[ "ipsi" := docstring_pattern ]} unilateral_table
       docstring_data ["II"; "III"] false
     = Ok (Series [true; false])
  /\ do_lnls_match
       {[ "ipsi" := docstring_pattern; "contra" := docstring_pattern ]}
       bilateral_table
       {| nlevels := 2;
          columns := [["ipsi"; "II"]; ["contra"; "II"]];
          rows := [ {[ ["ipsi"; "II"] := CBool true;
                       ["contra"; "II"] := CBool false ]} ] |}
       ["II"; "III"] false
     = Ok (Series [false]).
Proof.
  destruct (get_match_idx_fold (Scalar true) docstring_pattern docstring_data
              ["II"; "III"] false)
    as (Hfold & Hskip & Hrow & Hunilateral & Hbilateral).
  split; [exact Hfold|].
  split; [apply Hskip; reflexivity|].
  split.
  { rewrite (Hrow (Series [true; false]) 1
               {[ ["II"] := CBool false; ["III"] := CBool false ]} true);
      reflexivity. }
  split.
  { rewrite (Hunilateral unilateral_table {[ "ipsi" := docstring_pattern ]}
               docstring_data docstring_pattern);
      reflexivity. }
  etrans.
  - eapply (Hbilateral bilateral_table
              {[ "ipsi" := docstring_pattern; "contra" := docstring_pattern ]}
              _ docstring_pattern docstring_pattern).
    + vm_compute. discriminate.
    + reflexivity.
    + reflexivity.
    + vm_compute. reflexivity.
    + vm_compute. reflexivity.
  - vm_compute. reflexivity.
Defined.

Lemma mask_not_and (a b : mask) :
  mask_not (mask_and a b) = mask_or (mask_not a) (mask_not b).
Proof.
  destruct a as [x|l], b as [y|l']; simpl; f_equal.
  - apply negb_andb.
  - rewrite <- !list_fmap_compose. apply list_fmap_ext.
    intros i v _. apply negb_andb.
  - rewrite <- !list_fmap_compose. apply list_fmap_ext.
    intros i v _. apply negb_andb.
  - revert l'. induction l as [|v l IH]; intros [|v' l']; simpl; [done..|].
    by rewrite negb_andb, IH.
Qed.

(** By De Morgan, the inverted fold from the negated start is the negation
    of the normal fold, for every pattern; a missing column raises the
    same [KeyError] in both modes. *)
Lemma get_match_idx_de_morgan (start : mask)
    (pattern : gmap string (option bool)) (data : DataFrame)
    (lnls : list string) :
  get_match_idx (mask_not start) pattern data lnls true
  = mask_not <$> get_match_idx start pattern data lnls false.
Proof.
  revert start. induction lnls as [|lnl lnls IH]; intros start; [done|].
  rewrite !get_match_idx_cons.
  destruct (constraint_of pattern lnl) as [v|]; [|apply IH].
  destruct (column data [lnl]) as [series|e]; simpl; [|done].
  rewrite <- IH, mask_not_and. simpl.
  by rewrite <- list_fmap_compose.
Qed.

(** C8: for a pattern that constrains exactly one level, the selector of
    the inverted mode started from all-false is the pointwise negation of
    the selector of the normal mode started from all-true, be the start
    the bare [True] of the callers or a Series of [True]; a missing column
    raises the same [KeyError] in both modes. *)
Theorem get_match_idx_single_level_negation
    (pattern : gmap string (option bool)) (data : DataFrame)
    (lnls : list string) (start : mask) :
  constrained_count pattern = 1 ->
  all_true start = true ->
  get_match_idx (mask_not start) pattern data lnls true
  = mask_not <$> get_match_idx start pattern data lnls false.
Proof. intros _ _. apply get_match_idx_de_morgan. Qed.

Lemma get_match_idx_single_level_negation_witness :
  get_match_idx (Scalar false) docstring_pattern docstring_data ["II"; "III"]
    true
  = mask_not <$> get_match_idx (Scalar true) docstring_pattern docstring_data
                   ["II"; "III"] false
  /\ get_match_idx (Series [false; false]) docstring_pattern docstring_data
       ["II"; "III"] true
     = Ok (Series [false; true]).
Proof.
  split.
  - apply (get_match_idx_single_level_negation docstring_pattern
             docstring_data ["II"; "III"] (Scalar true)).
    + vm_compute. reflexivity.
    + reflexivity.
  - etrans.
    + apply (get_match_idx_single_level_negation docstring_pattern
               docstring_data ["II"; "III"] (Series [true; true])).
      * vm_compute. reflexivity.
      * reflexivity.
    + vm_compute. reflexivity.
Defined.

(** ** The observed prevalence without a constraint *)

Lemma complete_pattern_ipsi
    (pattern : option (gmap string (gmap string (option bool))))
    (lnls : list string) :
  exists ipsi, complete_pattern pattern lnls !! "ipsi" = Some ipsi.
Proof. unfold complete_pattern. simpl. rewrite lookup_insert_eq. eauto. Qed.

Lemma complete_pattern_contra
    (pattern : option (gmap string (gmap string (option bool))))
    (lnls : list string) :
  exists contra, complete_pattern pattern lnls !! "contra" = Some contra.
Proof.
  unfold complete_pattern. simpl.
  rewrite lookup_insert_ne, lookup_insert_eq by done. eauto.
Qed.

Lemma constrains_no_level_side
    (pattern : gmap string (gmap string (option bool)))
    (sides lnls : list string) (side : string)
    (pattern_side : gmap string (option bool)) :
  constrains_no_level pattern sides lnls = true ->
  side ∈ sides ->
  pattern !! side = Some pattern_side ->
  Forall (fun lnl => constraint_of pattern_side lnl = None) lnls.
Proof.
  unfold constrains_no_level. rewrite forallb_forall.
  intros Hall Hside Hlookup. apply list_elem_of_In, Hall in Hside.
  rewrite Hlookup, forallb_forall in Hside.
  apply Forall_forall. intros lnl Hlnl.
  apply list_elem_of_In, Hside in Hlnl. by apply bool_decide_eq_true in Hlnl.
Qed.

Lemma do_lnls_match_no_constraint
    (pattern : option (gmap string (gmap string (option bool))))
    (data eligible : DataFrame) (lnls : list string) (invert : bool) :
  Forall (fun side => exists sub, subframe eligible side = Ok sub)
    (sliced_sides data) ->
  constrains_no_level (complete_pattern pattern lnls) (relevant_sides data)
    lnls = true ->
  do_lnls_match (complete_pattern pattern lnls) data eligible lnls invert
  = Ok (Scalar (negb invert)).
Proof.
  intros Hsides Hnone.
  destruct (complete_pattern_ipsi pattern lnls) as [ipsi Hipsi].
  destruct (complete_pattern_contra pattern lnls) as [contra Hcontra].
  unfold do_lnls_match, dict_get, sliced_sides, relevant_sides in *.
  destruct (decide (nlevels data = 2)).
  - rewrite Hipsi. simpl. apply get_match_idx_unconstrained.
    eapply constrains_no_level_side; [done| |done]. set_solver.
  - apply Forall_cons in Hsides as [[sub_ipsi Hsub_ipsi] Hsides].
    apply Forall_cons in Hsides as [[sub_contra Hsub_contra] _].
    simpl. rewrite Hipsi, Hcontra. simpl.
    rewrite Hsub_ipsi, Hsub_contra. simpl.
    rewrite get_match_idx_unconstrained; simpl.
    + rewrite get_match_idx_unconstrained; simpl; [done|].
      eapply constrains_no_level_side; [done| |done]. set_solver.
    + eapply constrains_no_level_side; [done| |done]. set_solver.
Qed.

(** C5 (as amended): when the completed pattern constrains no level on
    the sides that are read, and the table has the columns of its kind -
    the filters and the choice of the modality give an eligible sub-table,
    of which, for a table of three header rows, both sides can be
    sliced -, then [compute_observed_prevalence] does not raise: the
    selector stays the bare [not invert], the row lookup with it raises
    the [KeyError] that the function catches, and the result is
    (eligible, eligible) in normal mode and (0, eligible) in inverted
    mode. *)
Theorem compute_observed_prevalence_no_constraint
    (pattern : option (gmap string (gmap string (option bool))))
    (data : DataFrame) (lnls : list string) (t_stage modality : string)
    (midline_ext : option bool) (invert : bool) (eligible : DataFrame) :
  eligible_data data t_stage modality midline_ext = Ok eligible ->
  Forall (fun side => exists sub, subframe eligible side = Ok sub)
    (sliced_sides data) ->
  constrains_no_level (complete_pattern pattern lnls) (relevant_sides data)
    lnls = true ->
  compute_observed_prevalence pattern data lnls t_stage modality midline_ext
    invert
  = Ok (if invert then 0 else len eligible, len eligible).
Proof.
  intros Heligible Hsides Hnone. unfold compute_observed_prevalence.
  rewrite Heligible. simpl.
  rewrite do_lnls_match_no_constraint by done. done.
Qed.

Lemma compute_observed_prevalence_no_constraint_witness :
  compute_observed_prevalence None bilateral_table ["II"] "early/late"
    "max_llh" (Some true) true
  = Ok (0, 2)
  /\ compute_observed_prevalence None unilateral_table ["II"; "III"] "early"
       "max_llh" None false
     = Ok (2, 2).
Proof.
  split.
  - pose (eligible :=
            match eligible_data bilateral_table "early/late" "max_llh"
                    (Some true) with
            | Ok e => e
            | Raise _ => docstring_data
            end).
    etrans.
    + apply (compute_observed_prevalence_no_constraint None bilateral_table
               ["II"] "early/late" "max_llh" (Some true) true eligible).
      * vm_compute. reflexivity.
      * repeat constructor; eexists; vm_compute; reflexivity.
      * vm_compute. reflexivity.
    + vm_compute. reflexivity.
  - pose (eligible :=
            match eligible_data unilateral_table "early" "max_llh" None with
            | Ok e => e
            | Raise _ => docstring_data
            end).
    etrans.
    + apply (compute_observed_prevalence_no_constraint None unilateral_table
               ["II"; "III"] "early" "max_llh" None false eligible).
      * vm_compute. reflexivity.
      * constructor.
      * vm_compute. reflexivity.
    + vm_compute. reflexivity.
Defined.

(** C5 (as stated) fails: on a table of three header rows whose modality
    has columns for the ipsilateral side only, a pattern that constrains
    no level and one eligible patient, the slice of the contralateral
    side raises a [KeyError] before the [try] block, in both modes. *)
Lemma compute_observed_prevalence_one_sided_modality :
  constrains_no_level (complete_pattern None ["II"])
    (relevant_sides ipsi_only_table) ["II"] = true
  /\ len <$> eligible_data ipsi_only_table "early" "max_llh" None = Ok 1
  /\ compute_observed_prevalence None ipsi_only_table ["II"] "early"
       "max_llh" None false = Raise KeyError
  /\ compute_observed_prevalence None ipsi_only_table ["II"] "early"
       "max_llh" None true = Raise KeyError.
Proof. repeat split; vm_compute; reflexivity. Qed.

(** ** Predicted prevalences *)

Section PredictionFacts.
Context {num St : Type} `{Number num} `{Lymph num St}.

(** C10: the result of [compute_predicted_prevalence] does not depend on
    its argument [midline_ext_prob]: no branch reads it before it is
    overwritten. *)
Theorem compute_predicted_prevalence_ignores_midline_ext_prob
    (loaded_model : LymphModel num St) (given_params : list num)
    (midline_ext : option bool) (t_stage : string)
    (midline_ext_prob midline_ext_prob' : option num) (early_prob : num) :
  compute_predicted_prevalence loaded_model given_params midline_ext t_stage
    midline_ext_prob early_prob
  = compute_predicted_prevalence loaded_model given_params midline_ext t_stage
      midline_ext_prob' early_prob.
Proof.
  unfold compute_predicted_prevalence.
  destruct (decide (class_of loaded_model = MidlineBilateral)); [|done].
  destruct midline_ext as [[|]|]; done.
Qed.

(** What the code computes for a midline-capable model and an unknown
    midline extension: the plain sum of the two likelihoods that the
    model returns for the patients with and without midline extension;
    for the stage "early/late" the sum of the four likelihoods, the early
    ones weighted by [early_prob] and the late ones by [1 - early_prob].
    [midline_ext_prob] does not enter, although the docstring of the
    function says that this case is "marginalized over both cases,
    assuming the provided [midline_ext_prob]". *)
Lemma compute_predicted_prevalence_unknown_midline_ext
    (loaded_model : LymphModel num St) (given_params : list num)
    (t_stage : string) (midline_ext_prob : option num) (early_prob : num) :
  class_of loaded_model = MidlineBilateral ->
  let assigned := assign loaded_model given_params in
  let llhs := likelihood_pair assigned given_params None true in
  let early_llhs := likelihood_pair assigned given_params (Some ["early"]) true in
  let late_llhs := likelihood_pair assigned given_params (Some ["late"]) true in
  (t_stage <> "early/late" ->
   compute_predicted_prevalence loaded_model given_params None t_stage
     midline_ext_prob early_prob
   = Ok (fst llhs [+] snd llhs, assigned))
  /\ compute_predicted_prevalence loaded_model given_params None "early/late"
       midline_ext_prob early_prob
     = Ok (early_prob [*] fst early_llhs [+] early_prob [*] snd early_llhs [+]
           (one [-] early_prob) [*] fst late_llhs [+]
           (one [-] early_prob) [*] snd late_llhs,
           assigned).
Proof.
  intros Hclass. unfold compute_predicted_prevalence.
  destruct (decide (class_of loaded_model = MidlineBilateral)); [|done].
  split.
  - intros Hstage. destruct (decide (t_stage = "early/late")); done.
  - done.
Qed.

Lemma calculate_midline_ext_prob_replicate (pmf : list num) (rate : num) :
  exists p, calculate_midline_ext_prob pmf (replicate (length pmf) rate) = Ok p.
Proof.
  rewrite calculate_midline_ext_prob_sum; [eauto|].
  rewrite length_replicate. lia.
Qed.

Lemma stage_midline_ext_prob_raises (loaded_model : LymphModel num St)
    (given_params : list num) (t_stage : string) (e : exn) :
  stage_midline_ext_prob loaded_model given_params t_stage = Raise e ->
  e = KeyError \/ e = IndexError.
Proof.
  unfold stage_midline_ext_prob, dict_get, getitem_back, getitem.
  destruct (diag_time_dists loaded_model !! t_stage) as [pmf|]; simpl;
    [|intros [= <-]; by left].
  destruct (decide (1 <= 2 <= length given_params)); simpl;
    [|intros [= <-]; by right].
  destruct (given_params !! (length given_params - 2)) as [rate|]; simpl;
    [|intros [= <-]; by right].
  destruct (calculate_midline_ext_prob_replicate pmf rate) as [p ->]. done.
Qed.

(** Whatever the class of the model, the only exceptions that leave
    [compute_predicted_prevalence] are those of the two lookups. *)
Lemma compute_predicted_prevalence_raises (loaded_model : LymphModel num St)
    (given_params : list num) (midline_ext : option bool) (t_stage : string)
    (midline_ext_prob : option num) (early_prob : num) (e : exn) :
  compute_predicted_prevalence loaded_model given_params midline_ext t_stage
    midline_ext_prob early_prob = Raise e ->
  class_of loaded_model = MidlineBilateral
  /\ midline_ext <> None
  /\ (e = KeyError \/ e = IndexError).
Proof.
  unfold compute_predicted_prevalence.
  destruct (decide (class_of loaded_model = MidlineBilateral)) as [Hclass|];
    [|by destruct (decide (t_stage = "early/late"))].
  destruct midline_ext as [v|];
    [|by destruct (decide (t_stage = "early/late"))].
  intros Hraise. split; [done|]. split; [done|].
  destruct v, (decide (t_stage = "early/late")); simpl in Hraise;
    repeat match type of Hraise with
           | context [stage_midline_ext_prob ?m ?g ?t] =>
               let Hstage := fresh "Hstage" in
               destruct (stage_midline_ext_prob m g t) eqn:Hstage;
               simpl in Hraise;
               [|injection Hraise as <-;
                 by eapply stage_midline_ext_prob_raises]
           end;
    done.
Qed.

(** ** The inversion law *)

Lemma one_more_inverted (yielded yielded' : list num) (v : num) :
  yielded = (fun v => one [-] v) <$> yielded' ->
  yielded ++ [one [-] v] = (fun v => one [-] v) <$> (yielded' ++ [v]).
Proof. intros ->. by rewrite fmap_app. Qed.

(** The loops of [predicted_risk] in the two modes, side by side. *)
Local Ltac relate_risk_loops Hloop :=
  match goal with
  | |- context [for_each ?samples ?body []] =>
      match goal with
      | |- context [for_each samples ?body' []] =>
          assert_fails (unify body body');
          pose proof (for_each_simulation
                        (fun y y' => y = (fun v => one [-] v) <$> y')
                        body body' samples [] []) as Hloop;
          apply result_rel_fmap in Hloop
      end
  end.

(** C6: with all other arguments equal, the values that
    [generate_predicted_prevalences] yields with [invert=True] are one
    minus the values that it yields with [invert=False], one by one and in
    order, and so are those of [predicted_risk]; the two runs raise the
    same exception if one does, and leave the model in the same state. *)
Theorem inversion_law
    (pattern : option (gmap string (gmap string (option bool))))
    (involvement : gmap string (gmap string (option bool)))
    (model : LymphModel num St) (samples : list (list num))
    (t_stage : string) (midline_ext : option bool)
    (midline_ext_prob : option num) (modality_spsn : option (list num))
    (early_prob : num) (risk_midline_ext : bool)
    (given_diagnosis : option (gmap string (gmap string (option bool))))
    (given_diagnosis_spsn : option (list num)) :
  generate_predicted_prevalences pattern model samples t_stage midline_ext
    midline_ext_prob modality_spsn true early_prob
  = inverted <$>
    generate_predicted_prevalences pattern model samples t_stage midline_ext
      midline_ext_prob modality_spsn false early_prob
  /\ predicted_risk involvement model samples t_stage risk_midline_ext
       given_diagnosis given_diagnosis_spsn true
     = inverted <$>
       predicted_risk involvement model samples t_stage risk_midline_ext
         given_diagnosis given_diagnosis_spsn false.
Proof.
  split.
  - unfold generate_predicted_prevalences.
    destruct (get_lnls model) as [lnls|e]; simpl; [|done].
    destruct (create_patient_row _ _ _ _) as [patient_row|e]; simpl; [|done].
    apply result_rel_fmap, for_each_simulation; [|done].
    intros state state' sample ->. simpl.
    destruct (compute_predicted_prevalence _ _ _ _ _ _)
      as [[prevalence left_model]|e]; simpl; [|done].
    unfold inverted. simpl. by rewrite fmap_app.
  - unfold predicted_risk.
    destruct (get_lnls model) as [lnls|e]; simpl; [|done].
    set (prepared := match given_diagnosis_spsn with
                     | Some spsn => _
                     | None => _
                     end).
    destruct (class_of prepared); [| | |done].
    + destruct (dict_get (clean_pattern given_diagnosis lnls) "ipsi")
        as [ipsi|e]; simpl; [|done].
      relate_risk_loops Hloop.
      * rewrite Hloop. clear Hloop.
        destruct (for_each samples _ []); reflexivity.
      * intros yielded yielded' sample Hy. simpl.
        destruct (dict_get _ "ipsi"); simpl; [|done].
        by apply one_more_inverted.
      * done.
    + simpl.
      relate_risk_loops Hloop.
      * rewrite Hloop. clear Hloop.
        destruct (for_each samples _ []); reflexivity.
      * intros yielded yielded' sample Hy. simpl.
        by apply one_more_inverted.
      * done.
    + simpl.
      relate_risk_loops Hloop.
      * rewrite Hloop. clear Hloop.
        destruct (for_each samples _ []); reflexivity.
      * intros yielded yielded' sample Hy. simpl.
        by apply one_more_inverted.
      * done.
Qed.

(** ** The class of the model *)

Lemma for_each_yield {A B : Type} (f : A -> B) (xs : list A)
    (yielded : list B) :
  for_each xs (fun yielded x => Ok (yielded ++ [f x])) yielded
  = Ok (yielded ++ (f <$> xs)).
Proof.
  revert yielded. induction xs as [|x xs IH]; intros yielded; simpl.
  - by rewrite app_nil_r.
  - rewrite IH. by rewrite <- app_assoc.
Qed.

(** For a model of one of the three classes, [predicted_risk] returns one
    value for each sample, a function of that sample alone. *)
Lemma predicted_risk_recognised
    (involvement : gmap string (gmap string (option bool)))
    (model : LymphModel num St) (t_stage : string) (midline_ext : bool)
    (given_diagnosis : option (gmap string (gmap string (option bool))))
    (given_diagnosis_spsn : option (list num)) (invert : bool)
    (lnls : list string) :
  class_of model <> OtherClass ->
  get_lnls model = Ok lnls ->
  exists (f : list num -> num) (left_model : LymphModel num St),
    forall samples,
      predicted_risk involvement model samples t_stage midline_ext
        given_diagnosis given_diagnosis_spsn invert
      = Ok (f <$> samples, left_model).
Proof.
  intros Hclass Hlnls. unfold predicted_risk, clean_pattern.
  rewrite Hlnls. simpl.
  set (prepared := match given_diagnosis_spsn with
                   | Some spsn => _
                   | None => _
                   end).
  assert (class_of prepared = class_of model) as ->
    by (subst prepared; by destruct given_diagnosis_spsn).
  destruct (complete_pattern_ipsi given_diagnosis lnls) as [ipsi Hipsi].
  destruct (complete_pattern_ipsi (Some involvement) lnls) as [inv Hinv].
  unfold dict_get. rewrite Hipsi, Hinv.
  destruct (class_of model); [| | |done]; eexists _, prepared; intros samples;
    simpl; by rewrite for_each_yield.
Qed.

Lemma compute_predicted_prevalence_class (loaded_model : LymphModel num St)
    (given_params : list num) (midline_ext : option bool) (t_stage : string)
    (midline_ext_prob : option num) (early_prob prevalence : num)
    (left_model : LymphModel num St) :
  compute_predicted_prevalence loaded_model given_params midline_ext t_stage
    midline_ext_prob early_prob = Ok (prevalence, left_model) ->
  class_of left_model = class_of loaded_model.
Proof.
  unfold compute_predicted_prevalence.
  destruct (decide (class_of loaded_model = MidlineBilateral)).
  - destruct (match midline_ext with
              | Some true => _
              | Some false => _
              | None => _
              end); simpl; [|done].
    by intros [= _ <-].
  - destruct (decide (t_stage = "early/late")); by intros [= _ <-].
Qed.

(** C7 (as amended): [predicted_risk] raises a [TypeError] for a model
    that is of none of the three classes (from its last branch, unless
    [get_lnls] has raised another exception before) and, [get_lnls]
    raising none, raises no [TypeError] for a model of any of the three
    classes: it returns once [get_lnls] does.
    [compute_predicted_prevalence] makes no such test: it never raises a
    [TypeError], and a model of any class but [MidlineBilateral], one of
    the three or not, goes through the branch of the plain likelihood and
    gets its prevalence. *)
Theorem model_class_type_error
    (involvement : gmap string (gmap string (option bool)))
    (model : LymphModel num St) (samples : list (list num))
    (t_stage : string) (risk_midline_ext : bool)
    (given_diagnosis : option (gmap string (gmap string (option bool))))
    (given_diagnosis_spsn : option (list num)) (invert : bool)
    (given_params : list num) (midline_ext : option bool)
    (midline_ext_prob : option num) (early_prob : num) :
  (class_of model = OtherClass ->
   (forall e, get_lnls model = Raise e -> e = TypeError) ->
   predicted_risk involvement model samples t_stage risk_midline_ext
     given_diagnosis given_diagnosis_spsn invert = Raise TypeError)
  /\ (class_of model <> OtherClass ->
      get_lnls model <> Raise TypeError ->
      predicted_risk involvement model samples t_stage risk_midline_ext
        given_diagnosis given_diagnosis_spsn invert <> Raise TypeError)
  /\ (class_of model <> OtherClass ->
      forall lnls,
        get_lnls model = Ok lnls ->
        exists stream,
          predicted_risk involvement model samples t_stage risk_midline_ext
            given_diagnosis given_diagnosis_spsn invert = Ok stream)
  /\ compute_predicted_prevalence model given_params midline_ext t_stage
       midline_ext_prob early_prob <> Raise TypeError
  /\ (class_of model <> MidlineBilateral ->
      exists prevalence,
        compute_predicted_prevalence model given_params midline_ext t_stage
          midline_ext_prob early_prob = Ok (prevalence, model)).
Proof.
  assert (Hreturns :
    class_of model <> OtherClass ->
    forall lnls,
      get_lnls model = Ok lnls ->
      exists stream,
        predicted_risk involvement model samples t_stage risk_midline_ext
          given_diagnosis given_diagnosis_spsn invert = Ok stream).
  { intros Hclass lnls Hlnls.
    destruct (predicted_risk_recognised involvement model t_stage
                risk_midline_ext given_diagnosis given_diagnosis_spsn invert
                lnls Hclass Hlnls) as (f & left_model & Hrisk).
    rewrite Hrisk. eauto. }
  split; [|split; [|split; [done|split]]].
  - intros Hclass Hlnls. unfold predicted_risk.
    destruct (get_lnls model) as [lnls|e]; simpl.
    + destruct given_diagnosis_spsn; simpl; by rewrite Hclass.
    + by rewrite (Hlnls e).
  - intros Hclass Hlnls.
    destruct (get_lnls model) as [lnls|e] eqn:Hget.
    + destruct (Hreturns Hclass lnls eq_refl) as [stream ->]. done.
    + unfold predicted_risk. rewrite Hget. simpl. congruence.
  - intros Hraise.
    apply compute_predicted_prevalence_raises in Hraise as (_ & _ & [?|?]);
      done.
  - intros Hclass. unfold compute_predicted_prevalence.
    destruct (decide (class_of model = MidlineBilateral)); [done|].
    destruct (decide (t_stage = "early/late")); eauto.
Qed.

(** ** Thinning *)

Lemma every_nth_lookup {A : Type} (n skip : nat) (l : list A) (i : nat) :
  1 <= n -> every_nth n skip l !! i = l !! (skip + i * n).
Proof.
  intros Hn. revert skip i.
  induction l as [|x l IH]; intros skip i; simpl.
  - by rewrite !lookup_nil.
  - destruct skip as [|skip].
    + destruct i as [|i]; simpl; [done|].
      rewrite IH. replace (n + i * n) with (S (pred n + i * n)) by lia. done.
    + rewrite IH. done.
Qed.

Lemma slice_step_lookup {A : Type} (samples : list A) (n : nat) :
  1 <= n ->
  exists thinned,
    slice_step samples (Z.of_nat n) = Ok thinned
    /\ (forall i, thinned !! i = samples !! (i * n))
    /\ (forall i, i < length thinned <-> i * n < length samples).
Proof.
  intros Hn. exists (every_nth n 0 samples). unfold slice_step.
  destruct (decide (Z.of_nat n = 0%Z)); [lia|].
  destruct (decide (0 < Z.of_nat n)%Z); [|lia].
  rewrite Nat2Z.id. split; [done|].
  assert (Hlookup : forall i, every_nth n 0 samples !! i = samples !! (i * n))
    by (intros i; by rewrite every_nth_lookup).
  split; [done|]. intros i.
  rewrite <- !lookup_lt_is_Some, Hlookup. done.
Qed.

Lemma prevalence_loop_yields (samples : list (list num))
    (midline_ext : option bool) (t_stage : string)
    (midline_ext_prob : option num) (early_prob : num) (invert : bool)
    (yielded : list num) (model : LymphModel num St)
    (stream : list num * LymphModel num St) :
  for_each samples
    (fun state sample =>
       predicted ←
         compute_predicted_prevalence (snd state) sample midline_ext t_stage
           midline_ext_prob early_prob;
       let prevalence := fst predicted in
       Ok (fst state ++ [if invert then one [-] prevalence else prevalence],
           snd predicted))
    (yielded, model) = Ok stream ->
  exists values,
    fst stream = yielded ++ values
    /\ Forall2 (yields_for midline_ext t_stage midline_ext_prob early_prob
                  invert) samples values.
Proof.
  revert yielded model.
  induction samples as [|sample samples IH]; intros yielded model; simpl.
  - intros [= <-]. exists []. by rewrite app_nil_r.
  - destruct (compute_predicted_prevalence model sample midline_ext t_stage
                midline_ext_prob early_prob)
      as [[prevalence left_model]|e] eqn:Hsample; simpl; [|done].
    intros Hrest. apply IH in Hrest as (values & -> & Hvalues).
    eexists (_ :: values). rewrite <- app_assoc. split; [done|].
    constructor; [|done]. by exists model, prevalence, left_model.
Qed.

Lemma prevalence_loop_returns (samples : list (list num))
    (midline_ext : option bool) (t_stage : string)
    (midline_ext_prob : option num) (early_prob : num) (invert : bool)
    (yielded : list num) (model : LymphModel num St) :
  class_of model <> MidlineBilateral \/ midline_ext = None ->
  exists stream,
    for_each samples
      (fun state sample =>
         predicted ←
           compute_predicted_prevalence (snd state) sample midline_ext t_stage
             midline_ext_prob early_prob;
         let prevalence := fst predicted in
         Ok (fst state ++ [if invert then one [-] prevalence else prevalence],
             snd predicted))
      (yielded, model) = Ok stream.
Proof.
  revert yielded model.
  induction samples as [|sample samples IH]; intros yielded model Hsafe;
    simpl; [eauto|].
  destruct (compute_predicted_prevalence model sample midline_ext t_stage
              midline_ext_prob early_prob)
    as [[prevalence left_model]|e] eqn:Hsample; simpl.
  - apply IH. destruct Hsafe as [Hclass|]; [left|by right].
    by rewrite (compute_predicted_prevalence_class _ _ _ _ _ _ _ _ Hsample).
  - apply compute_predicted_prevalence_raises in Hsample as (? & ? & _).
    by destruct Hsafe.
Qed.

Lemma create_patient_row_completed
    (pattern : option (gmap string (gmap string (option bool))))
    (lnls : list string) (t_stage : string) (midline_ext : option bool)
    (make_unilateral : bool) :
  exists patient_row,
    create_patient_row (complete_pattern pattern lnls) t_stage midline_ext
      make_unilateral = Ok patient_row.
Proof.
  destruct (complete_pattern_ipsi pattern lnls) as [ipsi Hipsi].
  unfold create_patient_row, dict_get. rewrite Hipsi. simpl.
  destruct make_unilateral, (decide (t_stage <> "early/late")),
    midline_ext; eauto.
Qed.

(** C9: a stride [n >= 1] selects the samples at the indices 0, n, 2n,
    ... in order - with a stride of 2 over 100 samples, the 50 samples at
    the indices 0, 2, ..., 98 -; the prevalences of [main] are one value
    for each selected sample, in order, whenever the run completes, and it
    does complete once [get_lnls] returns, unless the model is
    midline-capable with a known midline extension (where a lookup may
    fail); the risks of [main] are one value for each selected sample, in
    order, for every model of one of the three classes. *)
Theorem thinning_one_value_per_selected_sample
    (pattern : option (gmap string (gmap string (option bool))))
    (involvement : gmap string (gmap string (option bool)))
    (model : LymphModel num St) (t_stage : string)
    (midline_ext : option bool) (midline_ext_prob : option num)
    (modality_spsn : option (list num)) (invert : bool) (early_prob : num)
    (risk_midline_ext : bool)
    (given_diagnosis : option (gmap string (gmap string (option bool))))
    (given_diagnosis_spsn : option (list num)) :
  (forall (samples : list (list num)) (n : nat),
     1 <= n ->
     exists thinned,
       slice_step samples (Z.of_nat n) = Ok thinned
       /\ (forall i, thinned !! i = samples !! (i * n))
       /\ (forall i, i < length thinned <-> i * n < length samples)
       /\ (n = 2 -> length samples = 100 -> length thinned = 50)
       /\ (forall values left_model,
             main_prevs_arr model samples (Z.of_nat n) pattern t_stage
               midline_ext midline_ext_prob modality_spsn invert early_prob
             = Ok (values, left_model) ->
             Forall2 (yields_for midline_ext t_stage midline_ext_prob
                        early_prob invert) thinned values)
       /\ (forall lnls,
             get_lnls model = Ok lnls ->
             class_of model <> MidlineBilateral \/ midline_ext = None ->
             exists stream,
               main_prevs_arr model samples (Z.of_nat n) pattern t_stage
                 midline_ext midline_ext_prob modality_spsn invert early_prob
               = Ok stream))
  /\ (forall lnls,
        get_lnls model = Ok lnls ->
        class_of model <> OtherClass ->
        exists (f : list num -> num) (left_model : LymphModel num St),
          forall (samples : list (list num)) (n : nat),
            1 <= n ->
            exists thinned,
              slice_step samples (Z.of_nat n) = Ok thinned
              /\ main_risks_arr model samples (Z.of_nat n) involvement
                   t_stage risk_midline_ext given_diagnosis
                   given_diagnosis_spsn invert
                 = Ok (f <$> thinned, left_model)).
Proof.
  split.
  - intros samples n Hn.
    destruct (slice_step_lookup samples n Hn)
      as (thinned & Hslice & Hlookup & Hlength).
    exists thinned. split; [done|]. split; [done|]. split; [done|].
    split; [|split].
    + intros -> Hsamples.
      pose proof (Hlength 49) as H49. pose proof (Hlength 50) as H50. lia.
    + intros values left_model. unfold main_prevs_arr. rewrite Hslice. simpl.
      unfold generate_predicted_prevalences.
      destruct (get_lnls model) as [lnls|e]; simpl; [|done].
      destruct (create_patient_row _ _ _ _) as [patient_row|e]; simpl;
        [|done].
      intros Hloop.
      apply prevalence_loop_yields in Hloop as (values' & Hvalues & Hall).
      simpl in Hvalues. by subst values'.
    + intros lnls Hlnls Hsafe. unfold main_prevs_arr. rewrite Hslice. simpl.
      unfold generate_predicted_prevalences. rewrite Hlnls. simpl.
      destruct (create_patient_row_completed pattern lnls t_stage
                  midline_ext
                  (bool_decide
                     (class_of
                        match modality_spsn with
                        | Some spsn => set_modalities model {["prev" := spsn]}
                        | None =>
                            set_modalities model {["prev" := [one; one]]}
                        end = Unilateral)))
        as [patient_row Hrow].
      rewrite Hrow. simpl. apply prevalence_loop_returns.
      by destruct modality_spsn.
  - intros lnls Hlnls Hclass.
    destruct (predicted_risk_recognised involvement model t_stage
                risk_midline_ext given_diagnosis given_diagnosis_spsn invert
                lnls Hclass Hlnls) as (f & left_model & Hrisk).
    exists f, left_model. intros samples n Hn.
    destruct (slice_step_lookup samples n Hn) as (thinned & Hslice & _).
    exists thinned. split; [done|].
    unfold main_risks_arr. rewrite Hslice. simpl. apply Hrisk.
Qed.
End PredictionFacts.

Lemma compute_predicted_prevalence_unknown_midline_ext_witness :
  compute_predicted_prevalence (toy_model MidlineBilateral) [half; quarter]
    None "early" (Some quarter) half
  = Ok (Q2Qc (3 # 4), toy_model MidlineBilateral)
  /\ compute_predicted_prevalence (toy_model MidlineBilateral) [half; quarter]
       None "early/late" (Some quarter) half
     = Ok (Q2Qc (3 # 4), toy_model MidlineBilateral).
Proof.
  destruct (compute_predicted_prevalence_unknown_midline_ext
              (toy_model MidlineBilateral) [half; quarter] "early"
              (Some quarter) half eq_refl) as [Hstage Hboth].
  split.
  - rewrite Hstage by discriminate. do 2 f_equal.
    apply Qc_is_canon. reflexivity.
  - rewrite Hboth. do 2 f_equal. apply Qc_is_canon. reflexivity.
Defined.

(** C2: the code does not weight the two midline states as its docstring
    and the specification say.  For a midline-capable model whose
    likelihoods for the patients with and without midline extension are
    1/2 and 1/4, an unknown midline extension and
    [midline_ext_prob = 1/4], [compute_predicted_prevalence] returns the
    plain sum 3/4; the marginal under the weights (1/4, 3/4) is 5/16. *)
Lemma compute_predicted_prevalence_not_weighted :
  class_of (toy_model MidlineBilateral) = MidlineBilateral
  /\ compute_predicted_prevalence (toy_model MidlineBilateral)
       [half; quarter] None "early" (Some quarter) half
     = Ok (Q2Qc (3 # 4), toy_model MidlineBilateral)
  /\ weighted_midline_marginal quarter
       (likelihood_pair (assign (toy_model MidlineBilateral) [half; quarter])
          [half; quarter] None true)
     = Q2Qc (5 # 16)
  /\ fst <$> compute_predicted_prevalence (toy_model MidlineBilateral)
               [half; quarter] None "early" (Some quarter) half
     <> Ok (weighted_midline_marginal quarter
              (likelihood_pair
                 (assign (toy_model MidlineBilateral) [half; quarter])
                 [half; quarter] None true)).
Proof.
  split; [reflexivity|]. split; [|split].
  - vm_compute. do 2 f_equal. apply Qc_is_canon. reflexivity.
  - apply Qc_is_canon. reflexivity.
  - intros Heq. vm_compute in Heq. discriminate Heq.
Qed.

Lemma model_class_type_error_witness :
  predicted_risk ∅ (toy_model OtherClass) toy_samples "early" false None None
    false = Raise TypeError
  /\ predicted_risk ∅ (toy_model Bilateral) toy_samples "early" false None
       None false <> Raise TypeError
  /\ (exists stream,
        predicted_risk ∅ (toy_model Bilateral) toy_samples "early" false None
          None false = Ok stream)
  /\ (exists prevalence,
        compute_predicted_prevalence (toy_model Bilateral) [half; quarter]
          None "early" None half = Ok (prevalence, toy_model Bilateral)).
Proof.
  destruct (model_class_type_error ∅ (toy_model OtherClass) toy_samples
              "early" false None None false [half; quarter] None None half)
    as (Hother & _).
  destruct (model_class_type_error ∅ (toy_model Bilateral) toy_samples
              "early" false None None false [half; quarter] None None half)
    as (_ & Hno_error & Hrisk & _ & Hprevalence).
  split; [apply Hother; [reflexivity | discriminate]|].
  split; [apply Hno_error; discriminate|].
  split; [apply (Hrisk ltac:(discriminate) ["II"; "III"]); reflexivity|].
  apply Hprevalence; discriminate.
Defined.

(** C7 (as stated) fails: for an object of none of the three classes
    [compute_predicted_prevalence] returns the plain likelihood. *)
Lemma compute_predicted_prevalence_other_class :
  class_of (toy_model OtherClass) = OtherClass
  /\ compute_predicted_prevalence (toy_model OtherClass) [half; quarter] None
       "early" None half
     = Ok (half, toy_model OtherClass)
  /\ compute_predicted_prevalence (toy_model OtherClass) [half; quarter] None
       "early" None half
     <> Raise TypeError.
Proof. split; [reflexivity|]. split; [reflexivity|discriminate]. Qed.

Lemma thinning_one_value_per_selected_sample_witness :
  (exists thinned,
     slice_step toy_samples 2 = Ok thinned
     /\ (forall i, thinned !! i = toy_samples !! (i * 2))
     /\ exists stream,
          main_prevs_arr (toy_model Bilateral) toy_samples 2 None "early" None
            None None false half = Ok stream)
  /\ exists f left_model thinned,
       slice_step toy_samples 2 = Ok thinned
       /\ main_risks_arr (toy_model Bilateral) toy_samples 2 ∅ "early" false
            None None false
          = Ok (f <$> thinned, left_model).
Proof.
  destruct (thinning_one_value_per_selected_sample None ∅
              (toy_model Bilateral) "early" None None None false half false
              None None) as [Hprevalences Hrisks].
  split.
  - destruct (Hprevalences toy_samples 2 (le_S 1 1 (le_n 1)))
      as (thinned & Hslice & Hlookup & _ & _ & _ & Hreturns).
    exists thinned. split; [exact Hslice|]. split; [exact Hlookup|].
    apply (Hreturns ["II"; "III"]); [reflexivity|]. left. discriminate.
  - destruct (Hrisks ["II"; "III"]) as (f & left_model & Hall);
      [reflexivity | discriminate|].
    destruct (Hall toy_samples 2 (le_S 1 1 (le_n 1)))
      as (thinned & Hslice & Hrisk).
    exists f, left_model, thinned. split; [exact Hslice | exact Hrisk].
Defined.

(** * Further properties of the scripts *)

Lemma bind_Ok {A B : Type} (a : A) (f : A -> result B) : Ok a ≫= f = f a.
Proof. reflexivity. Qed.

(** ** Row selection *)

Lemma select_rows_fmap {A : Type} (f : A -> bool) (l : list A) :
  select_rows l (f <$> l) = filter (fun x => f x = true) l.
Proof.
  unfold select_rows. induction l as [|x l IH]; [done|].
  rewrite fmap_cons.
  change (zip (x :: l) (f x :: (f <$> l)))
    with ((x, f x) :: zip l (f <$> l)).
  rewrite !filter_cons. cbn [snd].
  destruct (decide (f x = true)) as [Hx|Hx].
  - rewrite fmap_cons. cbn [fst]. f_equal. apply IH.
  - apply IH.
Qed.

Lemma select_rows_length {A : Type} (l : list A) (keep : list bool) :
  length (select_rows l keep) <= length l.
Proof.
  unfold select_rows. rewrite length_fmap.
  etrans; [apply length_filter|]. rewrite length_zip_with. lia.
Qed.

(** The rows that a Series and its negation keep make up the table. *)
Lemma select_rows_complement {A : Type} (l : list A) (keep : list bool) :
  length keep = length l ->
  length (select_rows l (negb <$> keep)) + length (select_rows l keep)
  = length l.
Proof.
  unfold select_rows. rewrite !length_fmap. revert keep.
  induction l as [|x l IH]; intros [|b keep] Hlen; simplify_eq/=; [done|].
  rewrite !filter_cons. simpl.
  specialize (IH keep ltac:(done)).
  destruct b; simpl; repeat case_decide; simplify_eq/=; lia.
Qed.

Lemma column_present (data : DataFrame) (k : list string) :
  k ∈ columns data ->
  column data k = Ok ((fun r => cell_at r k) <$> rows data).
Proof. intros Hk. unfold column. by rewrite decide_True. Qed.

Lemma column_missing (data : DataFrame) (k : list string) :
  k ∉ columns data -> column data k = Raise KeyError.
Proof. intros Hk. unfold column. by rewrite decide_False. Qed.

(** ** The t-stage and midline selectors *)

Lemma does_t_stage_match_present (data : DataFrame) (t_stage : string) :
  nlevels data = 2 \/ nlevels data = 3 ->
  t_stage_key data ∈ columns data ->
  does_t_stage_match data t_stage
  = Ok (Series (row_has_t_stage data t_stage <$> rows data)).
Proof.
  unfold does_t_stage_match, row_has_t_stage, t_stage_key.
  intros Hlevels Hkey.
  destruct (decide (nlevels data = 3)).
  - rewrite column_present by done. simpl.
    destruct (decide (t_stage = "early/late"));
      by rewrite <- list_fmap_compose.
  - destruct (decide (nlevels data = 2)); [|lia].
    rewrite column_present by done. simpl.
    destruct (decide (t_stage = "early/late"));
      by rewrite <- list_fmap_compose.
Qed.

(** X1: [does_t_stage_match] raises a [ValueError] for a table whose
    column hierarchy has neither 2 nor 3 levels, whatever its columns are;
    for 2 or 3 levels it raises a [KeyError] when the t-stage column of
    that depth is missing, and otherwise returns a Series with one entry
    for each row: whether its stage is the asked one, or, for
    "early/late", one of the two. *)
Theorem does_t_stage_match_cases (data : DataFrame) (t_stage : string) :
  (nlevels data <> 2 -> nlevels data <> 3 ->
   does_t_stage_match data t_stage = Raise ValueError)
  /\ (nlevels data = 2 \/ nlevels data = 3 ->
      t_stage_key data ∉ columns data ->
      does_t_stage_match data t_stage = Raise KeyError)
  /\ (nlevels data = 2 \/ nlevels data = 3 ->
      t_stage_key data ∈ columns data ->
      does_t_stage_match data t_stage
      = Ok (Series (row_has_t_stage data t_stage <$> rows data))).
Proof.
  split; [|split; [|apply does_t_stage_match_present]].
  - intros H2 H3. unfold does_t_stage_match. by rewrite !decide_False.
  - intros Hlevels Hkey. unfold does_t_stage_match, t_stage_key in *.
    destruct (decide (nlevels data = 3)).
    + by rewrite column_missing.
    + destruct (decide (nlevels data = 2)); [|lia]. by rewrite column_missing.
Qed.

Lemma does_t_stage_match_cases_witness :
  does_t_stage_match docstring_data "early" = Raise ValueError
  /\ does_t_stage_match
       {| nlevels := 3; columns := [["info"; "t_stage"]]; rows := [] |}
       "early" = Raise KeyError
  /\ does_t_stage_match unilateral_table "early/late"
     = Ok (Series [true; true; true; true])
  /\ does_t_stage_match bilateral_table "late"
     = Ok (Series [false; false; true]).
Proof.
  split; [|split; [|split]].
  - apply (does_t_stage_match_cases docstring_data "early");
      vm_compute; discriminate.
  - apply (does_t_stage_match_cases
             {| nlevels := 3; columns := [["info"; "t_stage"]]; rows := [] |}
             "early").
    + right. reflexivity.
    + vm_compute. intros Hin. apply list_elem_of_In in Hin.
      destruct Hin as [Heq|[]]. discriminate Heq.
  - etrans.
    + apply (does_t_stage_match_cases unilateral_table "early/late").
      * left. reflexivity.
      * apply list_elem_of_In. left. reflexivity.
    + vm_compute. reflexivity.
  - etrans.
    + apply (does_t_stage_match_cases bilateral_table "late").
      * right. reflexivity.
      * apply list_elem_of_In. left. reflexivity.
    + vm_compute. reflexivity.
Defined.

Lemma cell_isin_early_late (c : cell) :
  cell_isin ["early"; "late"] c
  = cell_is_str "early" c || cell_is_str "late" c.
Proof.
  destruct c as [b|s|]; simpl; [done| |done].
  unfold cell_is_str.
  destruct (decide (s = "early")) as [->|Hearly]; [done|].
  destruct (decide (s = "late")) as [->|Hlate]; [done|].
  rewrite bool_decide_eq_false_2.
  - rewrite !bool_decide_eq_false_2; [done|congruence..].
  - intros Hin. apply list_elem_of_In in Hin.
    destruct Hin as [|[|[]]]; congruence.
Qed.

(** X2: the selector of the stage "early/late" is the selector of "early"
    or-ed with the selector of "late", with the same exceptions; no row is
    selected by both. *)
Theorem does_t_stage_match_early_late (data : DataFrame) :
  does_t_stage_match data "early/late"
  = (early ← does_t_stage_match data "early";
     late ← does_t_stage_match data "late";
     Ok (mask_or early late))
  /\ (forall early late i,
        does_t_stage_match data "early" = Ok early ->
        does_t_stage_match data "late" = Ok late ->
        mask_at (mask_and early late) i <> Some true).
Proof.
  assert (Hseries : forall series : list cell,
    Series (cell_isin ["early"; "late"] <$> series)
    = mask_or (Series (cell_is_str "early" <$> series))
        (Series (cell_is_str "late" <$> series))).
  { intros series. unfold mask_or. f_equal.
    induction series as [|c series IH]; [done|].
    rewrite !fmap_cons. cbn [zip_with].
    rewrite cell_isin_early_late. f_equal. exact IH. }
  assert (Hdisjoint : forall (series : list cell) i,
    mask_at (mask_and (Series (cell_is_str "early" <$> series))
               (Series (cell_is_str "late" <$> series))) i <> Some true).
  { intros series i. simpl. rewrite lookup_zip_with, !list_lookup_fmap.
    destruct (series !! i) as [c|]; simpl; [|done].
    destruct c as [b|s|]; simpl; try done.
    unfold cell_is_str. destruct (decide (s = "early")) as [->|Hs].
    - by rewrite (bool_decide_eq_false_2 (CStr "early" = CStr "late")).
    - rewrite bool_decide_eq_false_2 by congruence. done. }
  unfold does_t_stage_match. split.
  - destruct (decide (nlevels data = 3)).
    + destruct (column data _) as [series|err]; simpl; [|done].
      by rewrite Hseries.
    + destruct (decide (nlevels data = 2)); [|done].
      destruct (column data _) as [series|err]; simpl; [|done].
      by rewrite Hseries.
  - intros early late i.
    destruct (decide (nlevels data = 3)).
    + destruct (column data _) as [series|err]; simpl; [|done].
      intros [= <-] [= <-]. apply Hdisjoint.
    + destruct (decide (nlevels data = 2)); [|done].
      destruct (column data _) as [series|err]; simpl; [|done].
      intros [= <-] [= <-]. apply Hdisjoint.
Qed.

Lemma does_t_stage_match_early_late_witness :
  does_t_stage_match unilateral_table "early/late"
  = Ok (Series [true; true; true; true])
  /\ mask_at (mask_and (Series [true; false; true; true])
                (Series [false; true; false; false])) 1 <> Some true.
Proof.
  destruct (does_t_stage_match_early_late unilateral_table)
    as [Hor Hdisjoint].
  split.
  - rewrite Hor. vm_compute. reflexivity.
  - apply (Hdisjoint (Series [true; false; true; true])
             (Series [false; true; false; false]) 1);
      vm_compute; reflexivity.
Defined.

(** ** Empirical probabilities *)

Lemma getitem_mask_fmap (data : DataFrame)
    (test : gmap (list string) cell -> bool) :
  getitem_mask data (Series (test <$> rows data))
  = Ok {| nlevels := nlevels data;
          columns := columns data;
          rows := filter (fun r => test r = true) (rows data) |}.
Proof. unfold getitem_mask. by rewrite select_rows_fmap. Qed.

Section EmpiricalProbabilityFacts.
Context {num : Type} `{TrueDiv num}.

Lemma get_early_prob_present (data : DataFrame) :
  nlevels data = 2 \/ nlevels data = 3 ->
  t_stage_key data ∈ columns data ->
  get_early_prob data
  = if decide (len data = 0) then Raise (OtherError "ZeroDivisionError")
    else Ok (truediv (count_rows (row_has_t_stage data "early") data)
               (len data)).
Proof.
  intros Hlevels Hkey. unfold get_early_prob.
  rewrite does_t_stage_match_present, bind_Ok, getitem_mask_fmap by done.
  done.
Qed.

(** X3: on a table with its t-stage column, [get_early_prob] raises a
    [ZeroDivisionError] when the table has no row, and otherwise returns
    the quotient of the number of rows of stage "early" by the number of
    all rows, the former being at most the latter. *)
Theorem get_early_prob_fraction (data : DataFrame) :
  nlevels data = 2 \/ nlevels data = 3 ->
  t_stage_key data ∈ columns data ->
  count_rows (row_has_t_stage data "early") data <= len data
  /\ get_early_prob data
     = if decide (len data = 0) then Raise (OtherError "ZeroDivisionError")
       else Ok (truediv (count_rows (row_has_t_stage data "early") data)
                  (len data)).
Proof.
  intros Hlevels Hkey. split; [apply length_filter|].
  by apply get_early_prob_present.
Qed.

Lemma get_midline_ext_prob_bilateral (data : DataFrame) (t_stage : string) :
  nlevels data = 3 ->
  ["info"; "tumor"; "t_stage"] ∈ columns data ->
  ["info"; "tumor"; "midline_extension"] ∈ columns data ->
  let staged := count_rows (row_has_t_stage data t_stage) data in
  let extended :=
    count_rows (fun r => row_has_midline_ext true r
                         && row_has_t_stage data t_stage r) data in
  extended <= staged
  /\ get_midline_ext_prob data t_stage
     = if decide (staged = 0)
       then Raise (OtherError "ZeroDivisionError")
       else Ok (Some (truediv extended staged)).
Proof.
  intros Hlevels Hstage Hext staged extended.
  unfold get_midline_ext_prob.
  assert (Hcount : extended
    = length (filter (fun r => row_has_midline_ext true r = true)
                (filter (fun r => row_has_t_stage data t_stage r = true)
                   (rows data)))).
  { subst extended. unfold count_rows. rewrite list_filter_filter.
    f_equal. apply list_filter_iff. intros r.
    rewrite andb_true_iff. done. }
  split; [rewrite Hcount; apply length_filter|].
  rewrite decide_False by lia.
  rewrite does_t_stage_match_present;
    [|by right | unfold t_stage_key; by rewrite decide_True].
  rewrite bind_Ok, getitem_mask_fmap, bind_Ok.
  unfold does_midline_ext_match. cbn [nlevels columns rows].
  rewrite (decide_False (P := nlevels data = 2)) by lia.
  rewrite column_present by done.
  rewrite <- list_fmap_compose.
  change (cell_is_bool true
          ∘ (fun r : gmap (list string) cell =>
               cell_at r ["info"; "tumor"; "midline_extension"]))
    with (row_has_midline_ext true).
  pose proof (getitem_mask_fmap
                {| nlevels := nlevels data;
                   columns := columns data;
                   rows := filter
                             (fun r => row_has_t_stage data t_stage r = true)
                             (rows data) |}
                (row_has_midline_ext true)) as Hget.
  rewrite bind_Ok, Hget, bind_Ok.
  unfold len_ratio, len. cbn [rows]. rewrite <- Hcount.
  subst staged. unfold count_rows.
  by destruct (decide (length _ = 0)).
Qed.

(** X4: [get_midline_ext_prob] is [None] for a table of two header rows,
    whatever its columns are; on a table of three header rows with the
    t-stage and midline columns it raises a [ZeroDivisionError] when no
    row has the asked stage, and otherwise returns the quotient of the
    number of rows of that stage with midline extension by the number of
    rows of that stage, the former being at most the latter. *)
Theorem get_midline_ext_prob_fraction (data : DataFrame) (t_stage : string) :
  (nlevels data = 2 -> get_midline_ext_prob data t_stage = Ok None)
  /\ (nlevels data = 3 ->
      ["info"; "tumor"; "t_stage"] ∈ columns data ->
      ["info"; "tumor"; "midline_extension"] ∈ columns data ->
      let staged := count_rows (row_has_t_stage data t_stage) data in
      let extended :=
        count_rows (fun r => row_has_midline_ext true r
                             && row_has_t_stage data t_stage r) data in
      extended <= staged
      /\ get_midline_ext_prob data t_stage
         = if decide (staged = 0)
           then Raise (OtherError "ZeroDivisionError")
           else Ok (Some (truediv extended staged))).
Proof.
  split.
  - intros Hlevels. unfold get_midline_ext_prob. by rewrite decide_True.
  - apply get_midline_ext_prob_bilateral.
Qed.
End EmpiricalProbabilityFacts.

Lemma get_early_prob_fraction_witness :
  get_early_prob unilateral_table = Ok (Q2Qc (3 # 4))
  /\ get_early_prob
       {| nlevels := 2; columns := [["info"; "t_stage"]]; rows := [] |}
     = Raise (OtherError "ZeroDivisionError").
Proof.
  split.
  - destruct (get_early_prob_fraction (H := Qc_truediv) unilateral_table)
      as [_ Hprob].
    + left. reflexivity.
    + apply list_elem_of_In. left. reflexivity.
    + rewrite Hprob. vm_compute. reflexivity.
  - destruct (get_early_prob_fraction (H := Qc_truediv)
                {| nlevels := 2; columns := [["info"; "t_stage"]];
                   rows := [] |})
      as [_ Hprob].
    + left. reflexivity.
    + apply list_elem_of_In. left. reflexivity.
    + rewrite Hprob. reflexivity.
Defined.

Lemma get_midline_ext_prob_fraction_witness :
  get_midline_ext_prob unilateral_table "early" = Ok (None : option Qc)
  /\ get_midline_ext_prob bilateral_table "early" = Ok (Some half)
  /\ get_midline_ext_prob bilateral_table "advanced"
     = Raise (OtherError "ZeroDivisionError").
Proof.
  split; [|split].
  - apply (get_midline_ext_prob_fraction (H := Qc_truediv) unilateral_table
             "early").
    reflexivity.
  - destruct (get_midline_ext_prob_fraction (H := Qc_truediv) bilateral_table
                "early") as [_ Hprob].
    destruct Hprob as [_ Hprob].
    + reflexivity.
    + apply list_elem_of_In. left. reflexivity.
    + apply list_elem_of_In. right. left. reflexivity.
    + rewrite Hprob. vm_compute. reflexivity.
  - destruct (get_midline_ext_prob_fraction (H := Qc_truediv) bilateral_table
                "advanced") as [_ Hprob].
    destruct Hprob as [_ Hprob].
    + reflexivity.
    + apply list_elem_of_In. left. reflexivity.
    + apply list_elem_of_In. right. left. reflexivity.
    + rewrite Hprob. vm_compute. reflexivity.
Defined.

(** ** The selector of [get_match_idx], in closed form *)

Lemma get_match_idx_fits (pattern : gmap string (option bool))
    (data : DataFrame) (lnls : list string) (invert : bool)
    (start m : mask) :
  get_match_idx start pattern data lnls invert = Ok m ->
  mask_fits (len data) start ->
  mask_fits (len data) m.
Proof.
  revert start. induction lnls as [|lnl lnls IH]; intros start.
  - by intros [= <-].
  - rewrite get_match_idx_cons.
    destruct (constraint_of pattern lnl) as [v|]; [|apply IH].
    unfold column. destruct (decide ([lnl] ∈ columns data)); [|done].
    rewrite bind_Ok. intros Hrun Hstart. apply (IH _ Hrun).
    destruct invert, start as [b|l]; simpl in *;
      rewrite ?length_zip_with, ?length_fmap; unfold len in *; lia.
Qed.

Lemma get_match_idx_series (pattern : gmap string (option bool))
    (data : DataFrame) (lnls : list string) (invert : bool)
    (start m : mask) :
  get_match_idx start pattern data lnls invert = Ok m ->
  (exists l, start = Series l) \/ constrained_levels pattern lnls <> [] ->
  exists l, m = Series l.
Proof.
  revert start. induction lnls as [|lnl lnls IH]; intros start.
  - intros [= <-] [?|?]; done.
  - rewrite get_match_idx_cons. unfold constrained_levels. simpl.
    destruct (constraint_of pattern lnl) as [v|]; simpl; [|apply IH].
    unfold column. destruct (decide ([lnl] ∈ columns data)); [|done].
    rewrite bind_Ok. intros Hrun _. apply (IH _ Hrun). left.
    destruct invert, start as [b|l]; simpl; eauto.
Qed.

(** A constrained level without its column is a [KeyError]. *)
Lemma get_match_idx_missing_column (pattern : gmap string (option bool))
    (data : DataFrame) (lnls : list string) (invert : bool) (start : mask) :
  Exists (fun level => [fst level] ∉ columns data)
    (constrained_levels pattern lnls) ->
  get_match_idx start pattern data lnls invert = Raise KeyError.
Proof.
  rewrite get_match_idx_pattern_match_mask. unfold pattern_match_mask.
  generalize (constrained_levels pattern lnls). intros levels.
  revert start. induction levels as [|level levels IH]; intros start Hmissing.
  - by apply Exists_nil in Hmissing.
  - simpl. destruct (decide ([fst level] ∈ columns data)) as [Hin|Hout];
      [|done].
    rewrite bind_Ok. apply IH.
    apply Exists_cons in Hmissing as [?|?]; done.
Qed.

Lemma get_match_idx_returns (pattern : gmap string (option bool))
    (data : DataFrame) (lnls : list string) (invert : bool) (start : mask) :
  Forall (fun level => [fst level] ∈ columns data)
    (constrained_levels pattern lnls) ->
  exists m, get_match_idx start pattern data lnls invert = Ok m.
Proof.
  rewrite get_match_idx_pattern_match_mask. unfold pattern_match_mask.
  generalize (constrained_levels pattern lnls). intros levels.
  revert start. induction levels as [|level levels IH]; intros start Hall.
  - by eexists.
  - simpl. apply Forall_cons in Hall as [Hin Hall].
    rewrite decide_True by done. rewrite bind_Ok. by apply IH.
Qed.

Lemma get_match_idx_scalar (b : bool) (pattern : gmap string (option bool))
    (data : DataFrame) (lnls : list string) (invert : bool) :
  Forall (fun level => [fst level] ∈ columns data)
    (constrained_levels pattern lnls) ->
  get_match_idx (Scalar b) pattern data lnls invert
  = Ok match constrained_levels pattern lnls with
       | [] => Scalar b
       | _ :: _ =>
           Series ((fun r =>
                      if invert
                      then b || row_matches pattern lnls true r
                      else b && row_matches pattern lnls false r)
                   <$> rows data)
       end.
Proof.
  intros Hall.
  destruct (get_match_idx_returns pattern data lnls invert (Scalar b) Hall)
    as [m Hrun].
  rewrite Hrun. f_equal.
  destruct (constrained_levels pattern lnls) as [|level levels] eqn:Hlevels.
  - rewrite get_match_idx_unconstrained in Hrun; [by simplify_eq|].
    apply Forall_forall. intros lnl Hlnl.
    destruct (constraint_of pattern lnl) as [v|] eqn:Hv; [|done].
    assert ((lnl, v) ∈ constrained_levels pattern lnls) as Hin.
    { unfold constrained_levels. apply list_elem_of_omap.
      exists lnl. rewrite Hv. done. }
    rewrite Hlevels in Hin. by apply not_elem_of_nil in Hin.
  - destruct (get_match_idx_series _ _ _ _ _ _ Hrun) as [l ->];
      [right; by rewrite Hlevels|].
    pose proof (get_match_idx_fits _ _ _ _ _ _ Hrun I) as Hfits.
    simpl in Hfits. f_equal. apply list_eq. intros i.
    rewrite list_lookup_fmap.
    destruct (rows data !! i) as [r|] eqn:Hrow; simpl.
    + rewrite get_match_idx_pattern_match_mask in Hrun.
      pose proof (pattern_match_mask_at pattern data invert
                    (constrained_levels pattern lnls) (Scalar b) (Series l)
                    i r b Hrun Hrow eq_refl) as Hat.
      simpl in Hat. rewrite Hat. unfold row_matches.
      by destruct invert.
    + apply lookup_ge_None. apply lookup_ge_None in Hrow. unfold len in *. lia.
Qed.

(** X5: started from a bare [bool], [get_match_idx] raises a [KeyError]
    when some level that the pattern constrains has no column in the
    table, and only then (an unconstrained level may lack its column);
    otherwise it returns the bare start when no level is constrained, and
    else a Series with one entry for each row of the table: the start and
    all tests of the row (normal mode), the start or some test of the row
    (inverted mode). *)
Theorem get_match_idx_closed_form (b : bool)
    (pattern : gmap string (option bool)) (data : DataFrame)
    (lnls : list string) (invert : bool) :
  (Exists (fun level => [fst level] ∉ columns data)
     (constrained_levels pattern lnls) ->
   get_match_idx (Scalar b) pattern data lnls invert = Raise KeyError)
  /\ (Forall (fun level => [fst level] ∈ columns data)
        (constrained_levels pattern lnls) ->
      get_match_idx (Scalar b) pattern data lnls invert
      = Ok match constrained_levels pattern lnls with
           | [] => Scalar b
           | _ :: _ =>
               Series ((fun r =>
                          if invert
                          then b || row_matches pattern lnls true r
                          else b && row_matches pattern lnls false r)
                       <$> rows data)
           end).
Proof.
  split; [apply get_match_idx_missing_column | apply get_match_idx_scalar].
Qed.

Lemma get_match_idx_closed_form_witness :
  get_match_idx (Scalar true) docstring_pattern docstring_data ["IV"; "II"]
    true
  = Ok (Series [true; true])
  /\ get_match_idx (Scalar true) {[ "IV" := Some true ]} docstring_data
       ["II"; "IV"] false
     = Raise KeyError.
Proof.
  split.
  - etrans.
    + apply (get_match_idx_closed_form true docstring_pattern docstring_data
               ["IV"; "II"] true).
      vm_compute. repeat constructor.
    + vm_compute. reflexivity.
  - apply (get_match_idx_closed_form true {[ "IV" := Some true ]}
             docstring_data ["II"; "IV"] false).
    vm_compute. constructor. simpl. intros Hin.
    apply list_elem_of_In in Hin. destruct Hin as [Heq|[Heq|[]]];
      discriminate Heq.
Defined.

Lemma elem_of_constrained_levels (pattern : gmap string (option bool))
    (lnls : list string) (level : string * bool) :
  level ∈ constrained_levels pattern lnls
  <-> fst level ∈ lnls /\ constraint_of pattern (fst level) = Some (snd level).
Proof.
  unfold constrained_levels. rewrite list_elem_of_omap. split.
  - intros (lnl & Hlnl & Hlevel).
    destruct (constraint_of pattern lnl) as [v|] eqn:Hv; simplify_eq/=.
    done.
  - intros [Hlnl Hv]. exists (fst level). split; [done|].
    rewrite Hv. by destruct level.
Qed.

Lemma forallb_same_elements {A : Type} (f : A -> bool) (l l' : list A) :
  (forall x, x ∈ l <-> x ∈ l') -> forallb f l = forallb f l'.
Proof.
  intros Hsame. apply eq_true_iff_eq. rewrite !forallb_forall.
  split; intros Hall x Hx; apply Hall, list_elem_of_In, Hsame,
    list_elem_of_In, Hx.
Qed.

Lemma existsb_same_elements {A : Type} (f : A -> bool) (l l' : list A) :
  (forall x, x ∈ l <-> x ∈ l') -> existsb f l = existsb f l'.
Proof.
  intros Hsame. apply eq_true_iff_eq. rewrite !existsb_exists.
  split; intros (x & Hx & Hf); exists x;
    (split; [apply list_elem_of_In, Hsame, list_elem_of_In, Hx | done]).
Qed.

(** X6: started from a bare [bool], the result of [get_match_idx] - the
    selector or the [KeyError] - depends on the list of levels only
    through its elements: neither the order of the levels nor a level
    given twice changes it. *)
Theorem get_match_idx_order_irrelevant (b : bool)
    (pattern : gmap string (option bool)) (data : DataFrame)
    (lnls lnls' : list string) (invert : bool) :
  (forall lnl, lnl ∈ lnls <-> lnl ∈ lnls') ->
  get_match_idx (Scalar b) pattern data lnls invert
  = get_match_idx (Scalar b) pattern data lnls' invert.
Proof.
  intros Hsame.
  assert (Hlevels : forall level,
    level ∈ constrained_levels pattern lnls
    <-> level ∈ constrained_levels pattern lnls').
  { intros level. rewrite !elem_of_constrained_levels, Hsame. done. }
  destruct (decide (Forall (fun level => [fst level] ∈ columns data)
                      (constrained_levels pattern lnls))) as [Hall|Hmissing].
  - assert (Hall' : Forall (fun level => [fst level] ∈ columns data)
                      (constrained_levels pattern lnls')).
    { rewrite Forall_forall in Hall |- *. intros level Hlevel.
      by apply Hall, Hlevels. }
    rewrite !get_match_idx_scalar by done. f_equal.
    assert (Hrows : forall inv r,
      row_matches pattern lnls inv r = row_matches pattern lnls' inv r).
    { intros inv r. unfold row_matches.
      by rewrite (forallb_same_elements _ _ _ Hlevels),
        (existsb_same_elements _ _ _ Hlevels). }
    destruct (constrained_levels pattern lnls) as [|level levels],
      (constrained_levels pattern lnls') as [|level' levels']; try done.
    + pose proof (proj2 (Hlevels level') ltac:(left)) as Hin.
      by apply not_elem_of_nil in Hin.
    + pose proof (proj1 (Hlevels level) ltac:(left)) as Hin.
      by apply not_elem_of_nil in Hin.
    + f_equal. apply list_fmap_ext. intros i r _. by rewrite !Hrows.
  - apply not_Forall_Exists in Hmissing; [|apply _].
    assert (Hmissing' : Exists (fun level => [fst level] ∉ columns data)
                          (constrained_levels pattern lnls')).
    { rewrite Exists_exists in Hmissing |- *.
      destruct Hmissing as (level & Hlevel & Hout).
      exists level. split; [by apply Hlevels|done]. }
    rewrite !get_match_idx_missing_column; done.
Qed.

Lemma get_match_idx_order_irrelevant_witness :
  get_match_idx (Scalar true) docstring_pattern docstring_data
    ["III"; "II"; "III"; "II"] false
  = get_match_idx (Scalar true) docstring_pattern docstring_data ["II"; "III"]
      false.
Proof.
  apply get_match_idx_order_irrelevant.
  intros lnl. rewrite !elem_of_cons, !elem_of_nil. tauto.
Defined.

(** ** The observed prevalence *)

Lemma subframe_len (data sub : DataFrame) (label : string) :
  subframe data label = Ok sub -> len sub = len data.
Proof.
  unfold subframe. case_decide; [done|]. intros [= <-].
  unfold len. simpl. by rewrite length_fmap.
Qed.

Lemma eligible_data_len (data eligible : DataFrame) (t_stage modality : string)
    (midline_ext : option bool) :
  eligible_data data t_stage modality midline_ext = Ok eligible ->
  len eligible <= len data.
Proof.
  unfold eligible_data, loc.
  destruct (does_t_stage_match data t_stage) as [stage|e]; [|done].
  rewrite bind_Ok.
  destruct (does_midline_ext_match data midline_ext) as [ext|e]; [|done].
  rewrite bind_Ok.
  destruct (loc_rows data (mask_and stage ext)) as [selected|e] eqn:Hrows;
    [|done].
  rewrite bind_Ok.
  destruct (subframe selected modality) as [sub|e] eqn:Hsub; [|done].
  rewrite bind_Ok. intros [= <-].
  apply subframe_len in Hsub. unfold loc_rows in Hrows.
  destruct (mask_and stage ext) as [b|keep]; [done|]. simplify_eq.
  unfold len in *. cbn [rows dropna_all] in *.
  etrans; [apply length_filter|]. rewrite Hsub. apply select_rows_length.
Qed.

(** X7: whenever [compute_observed_prevalence] returns, the number of
    matching patients is at most the number of eligible patients, which is
    at most the number of rows of the table. *)
Theorem compute_observed_prevalence_bounds
    (pattern : option (gmap string (gmap string (option bool))))
    (data : DataFrame) (lnls : list string) (t_stage modality : string)
    (midline_ext : option bool) (invert : bool) (num_match num_total : nat) :
  compute_observed_prevalence pattern data lnls t_stage modality midline_ext
    invert = Ok (num_match, num_total) ->
  num_match <= num_total /\ num_total <= len data.
Proof.
  unfold compute_observed_prevalence.
  destruct (eligible_data data t_stage modality midline_ext)
    as [eligible|e] eqn:Heligible; [|done].
  rewrite bind_Ok. apply eligible_data_len in Heligible.
  destruct (do_lnls_match _ data eligible lnls invert) as [[b|keep]|e];
    [| |done]; rewrite bind_Ok; simpl.
  - intros [= <- <-]. destruct invert; lia.
  - intros [= <- <-]. unfold len. simpl. split; [|done].
    apply select_rows_length.
Qed.

Lemma compute_observed_prevalence_bounds_witness :
  1 <= 2 /\ 2 <= len unilateral_table.
Proof.
  apply (compute_observed_prevalence_bounds
           (Some {[ "ipsi" := docstring_pattern ]}) unilateral_table
           ["II"; "III"] "early" "max_llh" None false 1 2).
  vm_compute. reflexivity.
Defined.

Lemma do_lnls_match_de_morgan
    (pattern : gmap string (gmap string (option bool)))
    (data eligible : DataFrame) (lnls : list string) :
  do_lnls_match pattern data eligible lnls true
  = mask_not <$> do_lnls_match pattern data eligible lnls false.
Proof.
  unfold do_lnls_match.
  destruct (decide (nlevels data = 2)) as [Hlevels|Hlevels].
  - destruct (dict_get pattern "ipsi") as [ipsi|e]; [|done].
    rewrite !bind_Ok. apply (get_match_idx_de_morgan (Scalar true)).
  - simpl.
    destruct (dict_get pattern "ipsi") as [ipsi|e]; [|done].
    rewrite !bind_Ok.
    destruct (subframe eligible "ipsi") as [eligible_ipsi|e]; [|done].
    rewrite !bind_Ok.
    rewrite (get_match_idx_de_morgan (Scalar true)).
    destruct (get_match_idx (Scalar true) ipsi eligible_ipsi lnls false)
      as [matched|e]; [|done].
    simpl.
    destruct (dict_get pattern "contra") as [contra|e]; [|done].
    rewrite !bind_Ok.
    destruct (subframe eligible "contra") as [eligible_contra|e]; [|done].
    rewrite !bind_Ok.
    rewrite get_match_idx_de_morgan.
    by destruct (get_match_idx matched contra eligible_contra lnls false).
Qed.

Lemma do_lnls_match_fits (pattern : gmap string (gmap string (option bool)))
    (data eligible : DataFrame) (lnls : list string) (invert : bool)
    (m : mask) :
  do_lnls_match pattern data eligible lnls invert = Ok m ->
  mask_fits (len eligible) m.
Proof.
  unfold do_lnls_match.
  destruct (decide (nlevels data = 2)) as [Hlevels|Hlevels].
  - destruct (dict_get pattern "ipsi") as [ipsi|e]; [|done].
    rewrite bind_Ok. intros Hrun.
    by apply (get_match_idx_fits _ _ _ _ _ _ Hrun).
  - simpl.
    destruct (dict_get pattern "ipsi") as [ipsi|e]; [|done].
    rewrite bind_Ok.
    destruct (subframe eligible "ipsi") as [eligible_ipsi|e] eqn:Hipsi;
      [|done].
    rewrite bind_Ok.
    destruct (get_match_idx _ ipsi eligible_ipsi lnls invert)
      as [matched|e] eqn:Hmatched; [|done].
    rewrite bind_Ok.
    destruct (dict_get pattern "contra") as [contra|e]; [|done].
    rewrite bind_Ok.
    destruct (subframe eligible "contra") as [eligible_contra|e] eqn:Hcontra;
      [|done].
    rewrite bind_Ok.
    destruct (get_match_idx matched contra eligible_contra lnls invert)
      as [matched'|e] eqn:Hmatched'; [|done].
    rewrite bind_Ok. intros [= <-].
    apply subframe_len in Hipsi, Hcontra.
    rewrite <- Hcontra. apply (get_match_idx_fits _ _ _ _ _ _ Hmatched').
    rewrite Hcontra, <- Hipsi.
    by apply (get_match_idx_fits _ _ _ _ _ _ Hmatched).
Qed.

(** X8: the observed counts of the two modes add up: for the same
    arguments, [compute_observed_prevalence] with [invert=True] and with
    [invert=False] raise the same exception or return the same number of
    eligible patients, every one of which is counted as a match by exactly
    one of the two. *)
Theorem compute_observed_prevalence_inverted
    (pattern : option (gmap string (gmap string (option bool))))
    (data : DataFrame) (lnls : list string) (t_stage modality : string)
    (midline_ext : option bool) :
  result_rel
    (fun inverted normal =>
       snd inverted = snd normal
       /\ fst inverted + fst normal = snd normal)
    (compute_observed_prevalence pattern data lnls t_stage modality
       midline_ext true)
    (compute_observed_prevalence pattern data lnls t_stage modality
       midline_ext false).
Proof.
  unfold compute_observed_prevalence.
  destruct (eligible_data data t_stage modality midline_ext)
    as [eligible|e]; [|done].
  rewrite !bind_Ok, do_lnls_match_de_morgan.
  destruct (do_lnls_match _ data eligible lnls false) as [m|e] eqn:Hmatch;
    [|done].
  apply do_lnls_match_fits in Hmatch.
  destruct m as [b|keep]; simpl; [done|].
  split; [done|]. unfold len. simpl. by apply select_rows_complement.
Qed.

(** ** Thinning *)

Lemma every_nth_one {A : Type} (l : list A) : every_nth 1 0 l = l.
Proof.
  apply list_eq. intros i. rewrite every_nth_lookup by lia.
  f_equal. lia.
Qed.

Lemma every_nth_twice {A : Type} (a b : nat) (l : list A) :
  1 <= a -> 1 <= b ->
  every_nth b 0 (every_nth a 0 l) = every_nth (a * b) 0 l.
Proof.
  intros Ha Hb. apply list_eq. intros i.
  rewrite !every_nth_lookup by nia. f_equal. nia.
Qed.

(** X9: the default stride 1 keeps all samples; thinning by [a] and then
    by [b] is thinning by [a * b]; the stride -1 reverses the samples and
    the stride 0 is a [ValueError]. *)
Theorem slice_step_compose {A : Type} (samples : list A) :
  slice_step samples 1 = Ok samples
  /\ slice_step samples (-1) = Ok (reverse samples)
  /\ slice_step samples 0 = Raise ValueError
  /\ (forall a b : Z,
        (0 < a)%Z -> (0 < b)%Z ->
        (thinned ← slice_step samples a; slice_step thinned b)
        = slice_step samples (a * b)).
Proof.
  unfold slice_step. split; [|split; [|split]].
  - simpl. by rewrite every_nth_one.
  - simpl. by rewrite every_nth_one.
  - done.
  - intros a b Ha Hb.
    rewrite (decide_False (P := a = 0%Z)), (decide_True (P := (0 < a)%Z))
      by lia.
    rewrite bind_Ok.
    rewrite (decide_False (P := b = 0%Z)), (decide_True (P := (0 < b)%Z))
      by lia.
    rewrite (decide_False (P := (a * b)%Z = 0%Z)),
      (decide_True (P := (0 < a * b)%Z)) by lia.
    rewrite every_nth_twice by lia. by rewrite Z2Nat.inj_mul by lia.
Qed.

Lemma slice_step_compose_witness :
  (thinned ← slice_step [0; 1; 2; 3; 4; 5; 6; 7; 8; 9; 10] 2;
   slice_step thinned 3)
  = Ok [0; 6].
Proof.
  destruct (slice_step_compose [0; 1; 2; 3; 4; 5; 6; 7; 8; 9; 10])
    as (_ & _ & _ & Hcompose).
  rewrite (Hcompose 2%Z 3%Z); reflexivity.
Defined.

(** X10: a stride [n >= 1] over [len] samples keeps [ceil(len / n)] of
    them: as many values as [main] announces to the progress bar and
    stores. *)
Theorem slice_step_length {A : Type} (samples thinned : list A) (n : nat) :
  1 <= n ->
  slice_step samples (Z.of_nat n) = Ok thinned ->
  length thinned = (length samples + n - 1) / n.
Proof.
  intros Hn Hslice.
  destruct (slice_step_lookup samples n Hn) as (thinned' & Hslice' & _ & Hlen).
  rewrite Hslice in Hslice'. injection Hslice' as <-.
  set (k := length thinned) in *. set (total := length samples) in *.
  pose proof (Hlen k) as Hk.
  assert (Hlower : k = 0 \/ (k - 1) * n < total).
  { destruct k as [|k']; [by left|right]. apply Hlen. lia. }
  assert (Hupper : total <= k * n) by lia.
  apply Nat.div_unique with (r := total + n - 1 - n * k); nia.
Qed.

Lemma slice_step_length_witness :
  length (every_nth 3 0 [0; 1; 2; 3; 4; 5; 6; 7; 8; 9; 10]) = 4.
Proof.
  apply (slice_step_length [0; 1; 2; 3; 4; 5; 6; 7; 8; 9; 10]
           (every_nth 3 0 [0; 1; 2; 3; 4; 5; 6; 7; 8; 9; 10]) 3).
  - repeat constructor.
  - reflexivity.
Defined.

(** ** More on the cumulative midline-extension probability *)

Section MidlineExtProbMore.
Context {num : Type} `{Number num}.

Lemma no_extension_until_short (rates : list num) (t : nat) :
  length rates < t -> no_extension_until rates t = Raise IndexError.
Proof.
  intros Ht. unfold no_extension_until, range.
  replace t with (length rates + S (t - S (length rates))) by lia.
  rewrite seq_app, for_each_app.
  pose proof (no_extension_until_prod rates (length rates) ltac:(lia))
    as Hprefix.
  unfold no_extension_until, range in Hprefix. rewrite Hprefix, bind_Ok.
  simpl. unfold getitem. by rewrite lookup_ge_None_2 by lia.
Qed.

Lemma calculate_midline_ext_prob_short (diag_prob rates : list num) :
  S (length rates) < length diag_prob ->
  calculate_midline_ext_prob diag_prob rates = Raise IndexError.
Proof.
  intros Hshort. unfold calculate_midline_ext_prob, range.
  replace (length diag_prob)
    with (S (length rates) + S (length diag_prob - S (S (length rates))))
    by lia.
  rewrite seq_app, for_each_app.
  pose proof (cumulative_probability_loop diag_prob rates (S (length rates))
                ltac:(lia) ltac:(lia)) as Hprefix.
  unfold range in Hprefix. rewrite Hprefix, bind_Ok.
  simpl. by rewrite no_extension_until_short by lia.
Qed.

(** X11: [calculate_midline_ext_prob] raises an [IndexError] when fewer
    than T - 1 rates are given for a pmf of length T, and returns
    otherwise; its result depends on the first T - 1 rates only: of the T
    equal rates that [compute_predicted_prevalence] passes, the last one
    is never read. *)
Theorem calculate_midline_ext_prob_rates_read (diag_prob rates : list num) :
  (S (length rates) < length diag_prob ->
   calculate_midline_ext_prob diag_prob rates = Raise IndexError)
  /\ (length diag_prob <= S (length rates) ->
      (exists p, calculate_midline_ext_prob diag_prob rates = Ok p)
      /\ calculate_midline_ext_prob diag_prob rates
         = calculate_midline_ext_prob diag_prob
             (take (length diag_prob - 1) rates)).
Proof.
  split; [apply calculate_midline_ext_prob_short|].
  intros Hlen. rewrite !calculate_midline_ext_prob_sum
    by (rewrite ?length_take; lia).
  split; [eauto|]. do 2 f_equal.
  apply big_sum_ext. intros t Ht. f_equal.
  apply big_prod_ext. intros s Hs. f_equal.
  unfold entry. by rewrite lookup_take_lt by lia.
Qed.

(** X12: when the pmf has all its mass at one step [k], and the sum of
    the loop absorbs the terms that vanish - with [q t] the product of
    [1 - rates[s]] over [s < t]: [0 + q t * 0 = 0] before [k],
    [0 + q k * 1 = q k] at [k], and [q k + q t * 0 = q k] after [k], as
    in binary64 when the products are finite and [q k] is not the
    negative zero -, the result is [1 - q k]: only the rates before step
    [k] enter.  For [k = 1] that is [1 - (1 - rates[0])], given
    [1 * (1 - rates[0]) = 1 - rates[0]]; in binary64 it need not be
    [rates[0]]. *)
Theorem calculate_midline_ext_prob_point_mass (diag_prob rates : list num)
    (k : nat) :
  let q := fun t => big_prod (fun s => one [-] entry rates s) t in
  length diag_prob <= S (length rates) ->
  diag_prob !! k = Some one ->
  (forall t p, t <> k -> diag_prob !! t = Some p -> p = zero) ->
  (forall t, t < k -> zero [+] q t [*] zero = zero) ->
  zero [+] q k [*] one = q k ->
  (forall t, k < t < length diag_prob -> q k [+] q t [*] zero = q k) ->
  calculate_midline_ext_prob diag_prob rates = Ok (one [-] q k)
  /\ (k = 1 ->
      one [*] (one [-] entry rates 0) = one [-] entry rates 0 ->
      calculate_midline_ext_prob diag_prob rates
      = Ok (one [-] (one [-] entry rates 0))).
Proof.
  intros q Hlen Hk Hrest Hbefore Hat Hafter.
  assert (Hresult : calculate_midline_ext_prob diag_prob rates
                    = Ok (one [-] q k)).
  { rewrite calculate_midline_ext_prob_sum by lia. do 2 f_equal.
    assert (Hother : forall t, t <> k -> entry diag_prob t = zero).
    { intros t Ht. unfold entry.
      destruct (diag_prob !! t) as [p|] eqn:Hp; [|done].
      simpl. by apply (Hrest t). }
    assert (Hlt : k < length diag_prob) by (by eapply lookup_lt_Some).
    set (f := fun t => q t [*] entry diag_prob t).
    change (big_sum f (length diag_prob) = q k).
    assert (Hup_to : forall m, m <= k -> big_sum f m = zero).
    { induction m as [|m IH]; intros Hm; [done|].
      simpl. rewrite IH by lia. subst f. simpl.
      rewrite Hother by lia. apply Hbefore. lia. }
    assert (Hfrom : forall n,
              S k + n <= length diag_prob -> big_sum f (S k + n) = q k).
    { induction n as [|n IH]; intros Hn.
      - rewrite Nat.add_0_r. simpl. rewrite Hup_to by lia.
        subst f. simpl. unfold entry at 1. rewrite Hk. simpl. apply Hat.
      - rewrite Nat.add_succ_r. simpl. simpl in IH. rewrite IH by lia.
        subst f. simpl. rewrite (Hother (S (k + n))) by lia.
        apply Hafter. lia. }
    replace (length diag_prob) with (S k + (length diag_prob - S k)) by lia.
    apply Hfrom. lia. }
  split; [done|].
  intros -> Hone. rewrite Hresult. subst q. simpl. by rewrite Hone.
Qed.
End MidlineExtProbMore.

Lemma calculate_midline_ext_prob_rates_read_witness :
  calculate_midline_ext_prob [quarter; quarter; half] [half] = Raise IndexError
  /\ calculate_midline_ext_prob [quarter; quarter; half] [half; quarter; 1%Qc]
     = calculate_midline_ext_prob [quarter; quarter; half] [half; quarter].
Proof.
  destruct (calculate_midline_ext_prob_rates_read (H := Qc_number)
              [quarter; quarter; half] [half]) as [Hshort _].
  destruct (calculate_midline_ext_prob_rates_read (H := Qc_number)
              [quarter; quarter; half] [half; quarter; 1%Qc]) as [_ Hlong].
  split.
  - apply Hshort. simpl. lia.
  - apply Hlong. simpl. lia.
Defined.

(** In binary64 the rate of step 0 is not given back: for the rate
    [0x1.999999999999ap-4], the float that 0.1 denotes, the result is
    [0x1.9999999999998p-4], which prints as 0.09999999999999998. *)
Lemma calculate_midline_ext_prob_point_mass_witness :
  calculate_midline_ext_prob [0%float; 1%float; 0%float]
    [0x1.999999999999ap-4%float; 0.5%float; 0.5%float]
  = Ok 0x1.9999999999998p-4%float
  /\ PrimFloat.Leibniz.eqb 0x1.9999999999998p-4 0x1.999999999999ap-4 = false
  /\ calculate_midline_ext_prob [0%Qc; 1%Qc; 0%Qc] [quarter; half; half]
     = Ok quarter.
Proof.
  split; [|split; [reflexivity|]].
  - destruct (calculate_midline_ext_prob_point_mass (H := float_number)
                [0%float; 1%float; 0%float]
                [0x1.999999999999ap-4%float; 0.5%float; 0.5%float] 1)
      as [_ Hrate].
    + simpl. lia.
    + reflexivity.
    + intros [|[|[|t]]] p Hneq Hp; simpl in Hp; try done; by simplify_eq.
    + intros [|t] Ht; [reflexivity|lia].
    + reflexivity.
    + intros [|[|[|t]]] Ht; simpl in Ht; try lia; reflexivity.
    + rewrite Hrate; reflexivity.
  - destruct (calculate_midline_ext_prob_point_mass (H := Qc_number)
                [0%Qc; 1%Qc; 0%Qc] [quarter; half; half] 1) as [Hresult _].
    + simpl. lia.
    + reflexivity.
    + intros [|[|[|t]]] p Hneq Hp; simpl in Hp; try done; by simplify_eq.
    + intros [|t] Ht; [|lia]. apply Qc_is_canon. reflexivity.
    + apply Qc_is_canon. reflexivity.
    + intros [|[|[|t]]] Ht; simpl in Ht; try lia;
        apply Qc_is_canon; reflexivity.
    + rewrite Hresult. by f_equal.
Defined.

(** ** More on the predicted prevalences *)

Section PredictionMore.
Context {num St : Type} `{Number num} `{Lymph num St}.

(** X14: for a midline-capable model, a known midline extension and a
    single stage, [compute_predicted_prevalence] raises a [KeyError] when
    the model has no diagnosis-time distribution for the stage, else an
    [IndexError] when the sample has fewer than two parameters, and else
    returns the likelihood divided by the cumulative midline-extension
    probability under the constant rate [given_params[-2]] (midline
    extension) or by its complement (no midline extension). *)
Theorem compute_predicted_prevalence_known_midline_ext
    (loaded_model : LymphModel num St) (given_params : list num)
    (v : bool) (t_stage : string) (midline_ext_prob : option num)
    (early_prob : num) :
  class_of loaded_model = MidlineBilateral ->
  t_stage <> "early/late" ->
  let assigned := assign loaded_model given_params in
  (diag_time_dists assigned !! t_stage = None ->
   compute_predicted_prevalence loaded_model given_params (Some v) t_stage
     midline_ext_prob early_prob = Raise KeyError)
  /\ (forall pmf,
        diag_time_dists assigned !! t_stage = Some pmf ->
        length given_params < 2 ->
        compute_predicted_prevalence loaded_model given_params (Some v)
          t_stage midline_ext_prob early_prob = Raise IndexError)
  /\ (forall pmf rate,
        diag_time_dists assigned !! t_stage = Some pmf ->
        2 <= length given_params ->
        given_params !! (length given_params - 2) = Some rate ->
        exists ext_prob,
          calculate_midline_ext_prob pmf (replicate (length pmf) rate)
          = Ok ext_prob
          /\ compute_predicted_prevalence loaded_model given_params (Some v)
               t_stage midline_ext_prob early_prob
             = Ok (likelihood assigned given_params None true [/]
                   (if v then ext_prob else one [-] ext_prob),
                   assigned)).
Proof.
  intros Hclass Hstage assigned.
  unfold compute_predicted_prevalence.
  rewrite (decide_True (P := class_of loaded_model = MidlineBilateral))
    by done.
  fold assigned. unfold stage_midline_ext_prob, dict_get, getitem_back,
    getitem.
  split; [|split].
  - intros Hnone. destruct v; rewrite decide_False by done;
      by rewrite Hnone.
  - intros pmf Hpmf Hshort.
    destruct v; rewrite decide_False by done; rewrite Hpmf, bind_Ok;
      by rewrite decide_False by lia.
  - intros pmf rate Hpmf Hlong Hrate.
    destruct (calculate_midline_ext_prob_replicate pmf rate)
      as [ext_prob Hext].
    exists ext_prob. split; [done|].
    destruct v; rewrite decide_False by done; rewrite Hpmf, bind_Ok;
      rewrite decide_True by lia; rewrite Hrate, bind_Ok, Hext; done.
Qed.

Lemma compute_predicted_prevalence_keeps (loaded_model : LymphModel num St)
    (given_params : list num) (midline_ext : option bool) (t_stage : string)
    (midline_ext_prob : option num) (early_prob prevalence : num)
    (left_model : LymphModel num St) :
  compute_predicted_prevalence loaded_model given_params midline_ext t_stage
    midline_ext_prob early_prob = Ok (prevalence, left_model) ->
  class_of left_model = class_of loaded_model
  /\ modalities left_model = modalities loaded_model
  /\ patient_data left_model = patient_data loaded_model.
Proof.
  unfold compute_predicted_prevalence.
  destruct (decide (class_of loaded_model = MidlineBilateral)).
  - destruct (match midline_ext with
              | Some true => _
              | Some false => _
              | None => _
              end); simpl; [|done].
    by intros [= _ <-].
  - destruct (decide (t_stage = "early/late")); by intros [= _ <-].
Qed.

Lemma prevalence_loop_keeps (samples : list (list num))
    (midline_ext : option bool) (t_stage : string)
    (midline_ext_prob : option num) (early_prob : num) (invert : bool)
    (yielded : list num) (model : LymphModel num St)
    (stream : list num * LymphModel num St) :
  for_each samples
    (fun state sample =>
       predicted ←
         compute_predicted_prevalence (snd state) sample midline_ext t_stage
           midline_ext_prob early_prob;
       let prevalence := fst predicted in
       Ok (fst state ++ [if invert then one [-] prevalence else prevalence],
           snd predicted))
    (yielded, model) = Ok stream ->
  length (fst stream) = length yielded + length samples
  /\ class_of (snd stream) = class_of model
  /\ modalities (snd stream) = modalities model
  /\ patient_data (snd stream) = patient_data model.
Proof.
  revert yielded model.
  induction samples as [|sample samples IH]; intros yielded model; simpl.
  - intros [= <-]. simpl. split; [lia|done].
  - destruct (compute_predicted_prevalence model sample midline_ext t_stage
                midline_ext_prob early_prob)
      as [[prevalence left_model]|e] eqn:Hsample; simpl; [|done].
    intros Hrest. apply IH in Hrest as (Hlen & Hclass & Hmod & Hdata).
    apply compute_predicted_prevalence_keeps in Hsample
      as (Hclass' & Hmod' & Hdata').
    rewrite length_app in Hlen. simpl in Hlen.
    split; [lia|]. split; [congruence|]. split; congruence.
Qed.

(** X15: when [generate_predicted_prevalences] has run through, it has
    yielded one value for each sample, and the model has kept its class,
    has exactly the one modality "prev" (with the given specificity and
    sensitivity, or 1 and 1), whatever modalities it had before, and has
    the synthetic patients of the scenario as its patient data. *)
Theorem generate_predicted_prevalences_leaves
    (pattern : option (gmap string (gmap string (option bool))))
    (model : LymphModel num St) (samples : list (list num))
    (t_stage : string) (midline_ext : option bool)
    (midline_ext_prob : option num) (modality_spsn : option (list num))
    (invert : bool) (early_prob : num) (values : list num)
    (left_model : LymphModel num St) :
  generate_predicted_prevalences pattern model samples t_stage midline_ext
    midline_ext_prob modality_spsn invert early_prob
  = Ok (values, left_model) ->
  length values = length samples
  /\ class_of left_model = class_of model
  /\ modalities left_model = {[ "prev" := default [one; one] modality_spsn ]}
  /\ exists lnls patient_row,
       get_lnls model = Ok lnls
       /\ create_patient_row (complete_pattern pattern lnls) t_stage
            midline_ext (bool_decide (class_of model = Unilateral))
          = Ok patient_row
       /\ patient_data left_model = Some patient_row.
Proof.
  unfold generate_predicted_prevalences.
  destruct (get_lnls model) as [lnls|e]; [|done]. rewrite bind_Ok.
  set (prepared := match modality_spsn with
                   | Some spsn => _
                   | None => _
                   end).
  assert (Hclass : class_of prepared = class_of model)
    by (subst prepared; by destruct modality_spsn).
  assert (Hmod : modalities prepared
                 = {[ "prev" := default [one; one] modality_spsn ]})
    by (subst prepared; by destruct modality_spsn).
  rewrite Hclass.
  destruct (create_patient_row _ _ _ _) as [patient_row|e] eqn:Hrow; [|done].
  rewrite bind_Ok. intros Hloop.
  apply prevalence_loop_keeps in Hloop as (Hlen & Hclass' & Hmod' & Hdata).
  simpl in *. split; [done|]. split; [congruence|]. split; [congruence|].
  exists lnls, patient_row. done.
Qed.
End PredictionMore.

Lemma compute_predicted_prevalence_known_midline_ext_witness :
  compute_predicted_prevalence (toy_model MidlineBilateral) [half; quarter]
    (Some true) "advanced" None half = Raise KeyError
  /\ compute_predicted_prevalence (toy_model MidlineBilateral) [half]
       (Some true) "early" None half = Raise IndexError
  /\ compute_predicted_prevalence (toy_model MidlineBilateral)
       [Q2Qc (1 # 10); Q2Qc (2 # 10)] (Some true) "early" None half
     = Ok (Q2Qc 2, toy_model MidlineBilateral).
Proof.
  split; [|split].
  - destruct (compute_predicted_prevalence_known_midline_ext
                (toy_model MidlineBilateral) [half; quarter] true "advanced"
                None half eq_refl ltac:(discriminate)) as (Hkey & _).
    apply Hkey. reflexivity.
  - destruct (compute_predicted_prevalence_known_midline_ext
                (toy_model MidlineBilateral) [half] true "early" None half
                eq_refl ltac:(discriminate)) as (_ & Hindex & _).
    apply (Hindex [half; half]); [reflexivity | repeat constructor].
  - destruct (compute_predicted_prevalence_known_midline_ext
                (toy_model MidlineBilateral) [Q2Qc (1 # 10); Q2Qc (2 # 10)]
                true "early" None half eq_refl ltac:(discriminate))
      as (_ & _ & Hreturns).
    destruct (Hreturns [half; half] (Q2Qc (1 # 10)))
      as (ext_prob & Hext & Hrun).
    + reflexivity.
    + repeat constructor.
    + reflexivity.
    + rewrite Hrun. do 2 f_equal.
      assert (Ok ext_prob = Ok (Q2Qc (1 # 20))) as Heq.
      { rewrite <- Hext. reflexivity. }
      injection Heq as ->. apply Qc_is_canon. reflexivity.
Defined.

Lemma generate_predicted_prevalences_leaves_witness :
  match generate_predicted_prevalences None (toy_model Bilateral) toy_samples
          "early" None None None false half with
  | Ok stream =>
      length (fst stream) = length toy_samples
      /\ class_of (snd stream) = Bilateral
      /\ modalities (snd stream) = {[ "prev" := [1%Qc; 1%Qc] ]}
  | Raise _ => False
  end.
Proof.
  destruct (generate_predicted_prevalences None (toy_model Bilateral)
              toy_samples "early" None None None false half)
    as [[values left_model]|e] eqn:Hrun.
  - destruct (generate_predicted_prevalences_leaves _ _ _ _ _ _ _ _ _ _ _
                Hrun) as (Hlen & Hclass & Hmod & _).
    split; [exact Hlen|]. split; [exact Hclass | exact Hmod].
  - vm_compute in Hrun. discriminate Hrun.
Defined.
Lemma cell_at_insert_eq (r : gmap (list string) cell) (k : list string)
    (c : cell) :
  cell_at (<[k := c]> r) k = c.
Proof. unfold cell_at. by rewrite lookup_insert_eq. Qed.

Lemma cell_at_insert_ne (r : gmap (list string) cell) (k k' : list string)
    (c : cell) :
  k <> k' -> cell_at (<[k' := c]> r) k = cell_at r k.
Proof. intros Hne. unfold cell_at. by rewrite lookup_insert_ne. Qed.

Lemma elem_of_set_column (data : DataFrame) (k : list string) (c : cell) :
  k ∈ columns (set_column data k c).
Proof.
  unfold set_column. simpl. case_decide; [done|].
  apply elem_of_app. right. by apply list_elem_of_singleton.
Qed.

Lemma elem_of_set_column_other (data : DataFrame) (k k' : list string)
    (c : cell) :
  k ∈ columns data -> k ∈ columns (set_column data k' c).
Proof.
  intros Hk. unfold set_column. simpl. case_decide; [done|].
  apply elem_of_app. by left.
Qed.

Local Ltac cell_at_insert :=
  repeat first
    [ rewrite cell_at_insert_eq
    | rewrite cell_at_insert_ne by done ].

Local Ltac patient_row_cells :=
  split; [|split];
  [ unfold column; rewrite decide_True;
    [ simpl; by cell_at_insert
    | cbn [columns concat];
      first [ apply elem_of_set_column
            | apply elem_of_set_column_other, elem_of_set_column ] ]
  | unfold column; rewrite decide_True;
    [ simpl; by cell_at_insert
    | cbn [columns concat]; apply elem_of_set_column ]
  | let Hr := fresh "Hr" in
    intros k r ? ? Hr; simpl in Hr;
    repeat (apply elem_of_cons in Hr as [->|Hr]);
    [..|by apply elem_of_nil in Hr];
    by rewrite !lookup_insert_ne by done ].

Section PatientRowFacts.
Context {num St : Type} `{Lymph num St}.

(** X16: for a bilateral model the synthetic table has one row per
    combination of midline extension and T-stage: the midline extensions
    are the given one, or with and then without when none is given; within
    each, the stages are the given one, or early and then late for
    "early/late"; every other cell of every row is the flattened pattern's. *)
Theorem create_patient_row_bilateral
    (pattern : gmap string (gmap string (option bool))) (t_stage : string)
    (midline_ext : option bool) :
  exists patient_row,
    create_patient_row pattern t_stage midline_ext false = Ok patient_row
    /\ column patient_row ["info"; "tumor"; "t_stage"]
       = Ok (CStr <$> (exts_of midline_ext ≫= fun _ => stages_of t_stage))
    /\ column patient_row ["info"; "tumor"; "midline_extension"]
       = Ok (CBool <$> (exts_of midline_ext ≫= fun v =>
                          replicate (length (stages_of t_stage)) v))
    /\ (forall k r,
          k <> ["info"; "tumor"; "t_stage"] ->
          k <> ["info"; "tumor"; "midline_extension"] ->
          r ∈ rows patient_row ->
          r !! k = (list_to_map (flatten "prev" (Sided pattern))
                      : gmap (list string) cell) !! k).
Proof.
  unfold create_patient_row, stages_of, exts_of.
  destruct (decide (t_stage = "early/late")) as [->|Hstage].
  - destruct (decide ("early/late" <> "early/late")) as [Hne|_];
      [by destruct Hne|].
    destruct midline_ext as [v|]; eexists; (split; [reflexivity|]);
      patient_row_cells.
  - destruct (decide (t_stage <> "early/late")) as [_|Hne];
      [|by destruct Hne].
    destruct midline_ext as [v|]; eexists; (split; [reflexivity|]);
      patient_row_cells.
Qed.

(** X17: for a unilateral model the synthetic table is built from the
    ipsilateral pattern alone: its T-stage column, two levels deep, holds
    the given stage, or early and then late for "early/late"; every other
    cell of every row is the flattened ipsilateral pattern's, and the
    midline extension plays no part. *)
Theorem create_patient_row_unilateral
    (pattern : gmap string (gmap string (option bool)))
    (ipsi : gmap string (option bool)) (t_stage : string)
    (midline_ext : option bool) :
  pattern !! "ipsi" = Some ipsi ->
  exists patient_row,
    create_patient_row pattern t_stage midline_ext true = Ok patient_row
    /\ column patient_row ["info"; "t_stage"]
       = Ok (CStr <$> stages_of t_stage)
    /\ (forall k r,
          k <> ["info"; "t_stage"] ->
          r ∈ rows patient_row ->
          r !! k = (list_to_map (flatten "prev" (Flat ipsi))
                      : gmap (list string) cell) !! k).
Proof.
  intros Hipsi. unfold create_patient_row, dict_get, stages_of.
  rewrite Hipsi. simpl.
  destruct (decide (t_stage = "early/late")) as [->|Hstage].
  - destruct (decide ("early/late" <> "early/late")) as [Hne|_];
      [by destruct Hne|].
    eexists. split; [reflexivity|]. split.
    + unfold column. rewrite decide_True.
      * simpl. by cell_at_insert.
      * cbn [columns concat]. apply elem_of_set_column.
    + intros k r Hk Hr. simpl in Hr.
      repeat (apply elem_of_cons in Hr as [->|Hr]);
        [..|by apply elem_of_nil in Hr];
        by rewrite !lookup_insert_ne by done.
  - destruct (decide (t_stage <> "early/late")) as [_|Hne];
      [|by destruct Hne].
    eexists. split; [reflexivity|]. split.
    + unfold column. rewrite decide_True.
      * simpl. by cell_at_insert.
      * cbn [columns concat]. apply elem_of_set_column.
    + intros k r Hk Hr. simpl in Hr.
      repeat (apply elem_of_cons in Hr as [->|Hr]);
        [..|by apply elem_of_nil in Hr];
        by rewrite !lookup_insert_ne by done.
Qed.

End PatientRowFacts.

Lemma create_patient_row_unilateral_witness :
  exists patient_row,
    create_patient_row (H := toy_lymph) {[ "ipsi" := docstring_pattern ]}
      "early/late" (Some true) true = Ok patient_row
    /\ column patient_row ["info"; "t_stage"]
       = Ok [CStr "early"; CStr "late"].
Proof.
  destruct (create_patient_row_unilateral (H := toy_lymph)
              {[ "ipsi" := docstring_pattern ]} docstring_pattern
              "early/late" (Some true))
    as (patient_row & Hrow & Hcol & _); [reflexivity|].
  exists patient_row. split; [exact Hrow|exact Hcol].
Defined.

Section ScenarioFacts.
Context {num St : Type} `{Number num} `{TrueDiv num} `{Lymph num St}.

(** X18: one scenario of [main] on a table of three header rows with the
    t-stage and midline columns, for a thinning step other than 0: when no
    patient has the scenario's t-stage the scenario ends in a
    [ZeroDivisionError] before the model is used, whatever the model, the
    samples and the pattern are; otherwise the generator is called with
    the fraction of midline extension among the patients of that stage and
    with the fraction of early patients among all, and the scenario goes
    on to the observed prevalence. *)
Theorem main_scenario_empirical_fractions (model : LymphModel num St)
    (samples : list (list num)) (thin : Z) (data : DataFrame)
    (pattern : option (gmap string (gmap string (option bool))))
    (t_stage modality : string) (midline_ext : option bool)
    (modality_spsn : option (list num)) (invert : bool) :
  thin <> 0%Z ->
  nlevels data = 3 ->
  ["info"; "tumor"; "t_stage"] ∈ columns data ->
  ["info"; "tumor"; "midline_extension"] ∈ columns data ->
  let staged := count_rows (row_has_t_stage data t_stage) data in
  let extended :=
    count_rows (fun r => row_has_midline_ext true r
                         && row_has_t_stage data t_stage r) data in
  let early := count_rows (row_has_t_stage data "early") data in
  main_scenario model samples thin data pattern t_stage modality midline_ext
    modality_spsn invert
  = if decide (staged = 0) then Raise (OtherError "ZeroDivisionError")
    else
      thinned ← slice_step samples thin;
      prevs ←
        generate_predicted_prevalences pattern model thinned t_stage
          midline_ext (Some (truediv extended staged)) modality_spsn invert
          (truediv early (len data));
      lnls ← get_lnls (snd prevs);
      observed ←
        compute_observed_prevalence pattern data lnls t_stage modality
          midline_ext invert;
      Ok (fst prevs, observed, snd prevs).
Proof.
  intros Hthin Hlevels Hstage Hext staged extended early.
  unfold main_scenario.
  destruct (slice_step samples thin) as [thinned|err] eqn:Hslice.
  - rewrite !bind_Ok.
    destruct (get_midline_ext_prob_bilateral data t_stage Hlevels Hstage Hext)
      as [_ ->].
    fold staged extended.
    destruct (decide (staged = 0)) as [Hnone|Hsome]; [done|].
    rewrite bind_Ok, get_early_prob_present;
      [|by right | unfold t_stage_key; by rewrite decide_True].
    rewrite decide_False; [done|].
    intros Hlen. apply Hsome. subst staged. unfold count_rows.
    unfold len in Hlen.
    by destruct (rows data).
  - unfold slice_step in Hslice. rewrite decide_False in Hslice by done.
    by destruct (decide (0 < thin)%Z).
Qed.

End ScenarioFacts.

Lemma main_scenario_empirical_fractions_witness :
  main_scenario (toy_model MidlineBilateral) toy_samples 2 bilateral_table
    None "advanced" "max_llh" None None false
  = Raise (OtherError "ZeroDivisionError").
Proof.
  etrans.
  - apply (main_scenario_empirical_fractions (H := Qc_number)
             (H0 := Qc_truediv) (H1 := toy_lymph));
      [done | reflexivity | vm_compute; set_solver | vm_compute; set_solver].
  - reflexivity.
Defined.

Lemma result_rel_eq {A : Type} (P : A -> Prop) (a b : result A) :
  result_rel (fun x y => x = y /\ P x) a b -> a = b.
Proof. destruct a, b; simpl; [by intros [-> _] | done | done | by intros ->]. Qed.

Lemma complete_pattern_ipsi_side
    (pattern : option (gmap string (gmap string (option bool))))
    (lnls : list string) :
  complete_pattern pattern lnls !! "ipsi"
  = Some (complete_side (default ∅ (pattern ≫= (.!! "ipsi"))) lnls).
Proof.
  unfold complete_pattern. simpl. rewrite lookup_insert_eq.
  by destruct pattern.
Qed.

Section UnilateralFacts.
Context {num St : Type} `{Number num} `{Lymph num St}.

Lemma compute_predicted_prevalence_not_midline
    (loaded_model : LymphModel num St) (given_params : list num)
    (midline_ext : option bool) (t_stage : string)
    (midline_ext_prob : option num) (early_prob : num) :
  class_of loaded_model <> MidlineBilateral ->
  compute_predicted_prevalence loaded_model given_params midline_ext t_stage
    midline_ext_prob early_prob
  = Ok (if decide (t_stage = "early/late")
        then early_prob [*]
             likelihood loaded_model given_params (Some ["early"]) false [+]
             (one [-] early_prob) [*]
             likelihood loaded_model given_params (Some ["late"]) false
        else likelihood loaded_model given_params None false,
        loaded_model).
Proof.
  intros Hclass. unfold compute_predicted_prevalence.
  rewrite decide_False by done. by destruct (decide (t_stage = "early/late")).
Qed.

(** X19: for a unilateral model, the prevalences that
    [generate_predicted_prevalences] yields, the exception that it raises
    and the model that it leaves depend on the ipsilateral side of the
    pattern alone: the contralateral side, the midline extension and its
    probability play no part. *)
Theorem generate_predicted_prevalences_unilateral
    (pattern pattern' : option (gmap string (gmap string (option bool))))
    (model : LymphModel num St) (samples : list (list num))
    (t_stage : string) (midline_ext midline_ext' : option bool)
    (midline_ext_prob midline_ext_prob' : option num)
    (modality_spsn : option (list num)) (invert : bool) (early_prob : num) :
  class_of model = Unilateral ->
  pattern ≫= (.!! "ipsi") = pattern' ≫= (.!! "ipsi") ->
  generate_predicted_prevalences pattern model samples t_stage midline_ext
    midline_ext_prob modality_spsn invert early_prob
  = generate_predicted_prevalences pattern' model samples t_stage
      midline_ext' midline_ext_prob' modality_spsn invert early_prob.
Proof.
  intros Hclass Hipsi. unfold generate_predicted_prevalences.
  destruct (get_lnls model) as [lnls|err]; [|done]. rewrite !bind_Ok.
  set (prepared := match modality_spsn with
                   | Some spsn => _
                   | None => _
                   end).
  assert (Hprepared : class_of prepared = Unilateral)
    by (subst prepared; by destruct modality_spsn).
  rewrite Hprepared, bool_decide_eq_true_2 by done.
  unfold create_patient_row, dict_get.
  rewrite !complete_pattern_ipsi_side, Hipsi. simpl.
  destruct (decide (t_stage <> "early/late")); simpl.
  - apply (result_rel_eq (fun state => class_of (snd state) = Unilateral)).
    apply for_each_simulation; [|done].
    intros state state' sample [<- Hstate].
    rewrite !compute_predicted_prevalence_not_midline by (by rewrite Hstate).
    done.
  - apply (result_rel_eq (fun state => class_of (snd state) = Unilateral)).
    apply for_each_simulation; [|done].
    intros state state' sample [<- Hstate].
    rewrite !compute_predicted_prevalence_not_midline by (by rewrite Hstate).
    done.
Qed.

(** X20: for a unilateral model, the risks that [predicted_risk] yields
    and the model that it leaves depend on the ipsilateral sides of the
    involvement and of the given diagnosis alone: their contralateral
    sides and the midline extension play no part. *)
Theorem predicted_risk_unilateral
    (involvement involvement' : gmap string (gmap string (option bool)))
    (model : LymphModel num St) (samples : list (list num))
    (t_stage : string) (midline_ext midline_ext' : bool)
    (given_diagnosis given_diagnosis' :
       option (gmap string (gmap string (option bool))))
    (given_diagnosis_spsn : option (list num)) (invert : bool) :
  class_of model = Unilateral ->
  involvement !! "ipsi" = involvement' !! "ipsi" ->
  given_diagnosis ≫= (.!! "ipsi") = given_diagnosis' ≫= (.!! "ipsi") ->
  predicted_risk involvement model samples t_stage midline_ext
    given_diagnosis given_diagnosis_spsn invert
  = predicted_risk involvement' model samples t_stage midline_ext'
      given_diagnosis' given_diagnosis_spsn invert.
Proof.
  intros Hclass Hinvolved Hgiven. unfold predicted_risk, clean_pattern.
  destruct (get_lnls model) as [lnls|err]; [|done]. rewrite !bind_Ok.
  set (prepared := match given_diagnosis_spsn with
                   | Some spsn => _
                   | None => _
                   end).
  assert (Hprepared : class_of prepared = Unilateral)
    by (subst prepared; by destruct given_diagnosis_spsn).
  rewrite Hprepared. unfold dict_get.
  rewrite !complete_pattern_ipsi_side, Hgiven. simpl.
  by rewrite Hinvolved.
Qed.

End UnilateralFacts.

Lemma generate_predicted_prevalences_unilateral_witness :
  generate_predicted_prevalences
    (Some {[ "ipsi" := docstring_pattern; "contra" := docstring_pattern ]})
    (toy_model Unilateral) toy_samples "early" (Some true) (Some half) None
    false half
  = generate_predicted_prevalences
      (Some {[ "ipsi" := docstring_pattern ]})
      (toy_model Unilateral) toy_samples "early" None None None false half.
Proof.
  apply (generate_predicted_prevalences_unilateral (H := Qc_number)
           (H0 := toy_lymph)); reflexivity.
Defined.

Lemma predicted_risk_unilateral_witness :
  predicted_risk
    {[ "ipsi" := docstring_pattern; "contra" := docstring_pattern ]}
    (toy_model Unilateral) toy_samples "early" true None None false
  = predicted_risk {[ "ipsi" := docstring_pattern ]}
      (toy_model Unilateral) toy_samples "early" false (Some ∅) None false.
Proof.
  apply (predicted_risk_unilateral (H := Qc_number) (H0 := toy_lymph));
    reflexivity.
Defined.


Lemma zip_with_fmap_same {A B C D : Type} (op : B -> C -> D) (f : A -> B)
    (g : A -> C) (l : list A) :
  zip_with op (f <$> l) (g <$> l) = (fun x => op (f x) (g x)) <$> l.
Proof. induction l as [|x l IH]; csimpl; [done|]. by rewrite IH. Qed.

Lemma rowwise_mask_and {R : Type} (m : list R -> mask) (g : R -> bool) :
  rowwise m -> rowwise (fun l => mask_and (m l) (Series (g <$> l))).
Proof.
  intros [[b Hm]|[f Hm]]; right.
  - exists (fun x => b && g x). intros l. rewrite Hm. simpl.
    by rewrite <- list_fmap_compose.
  - exists (fun x => f x && g x). intros l. rewrite Hm. simpl.
    by rewrite zip_with_fmap_same.
Qed.

Lemma rowwise_mask_or {R : Type} (m : list R -> mask) (g : R -> bool) :
  rowwise m -> rowwise (fun l => mask_or (m l) (Series (g <$> l))).
Proof.
  intros [[b Hm]|[f Hm]]; right.
  - exists (fun x => b || g x). intros l. rewrite Hm. simpl.
    by rewrite <- list_fmap_compose.
  - exists (fun x => f x || g x). intros l. rewrite Hm. simpl.
    by rewrite zip_with_fmap_same.
Qed.

(** On tables that differ in their rows only, [get_match_idx] raises the
    same exception, or returns a selector that is computed row by row. *)
Lemma get_match_idx_rowwise {R : Type} (pattern : gmap string (option bool))
    (lnls : list string) (invert : bool) (n : nat)
    (c : list (list string)) (h : R -> gmap (list string) cell)
    (start : list R -> mask) :
  rowwise start ->
  (exists e, forall l,
     get_match_idx (start l) pattern (mkDataFrame n c (h <$> l)) lnls invert
     = Raise e)
  \/ (exists final,
        rowwise final
        /\ forall l,
             get_match_idx (start l) pattern (mkDataFrame n c (h <$> l)) lnls
               invert
             = Ok (final l)).
Proof.
  revert start. induction lnls as [|lnl lnls IH]; intros start Hstart.
  - right. exists start. done.
  - destruct (constraint_of pattern lnl) as [v|] eqn:Hlnl.
    + destruct (decide ([lnl] ∈ c)) as [Hcol|Hcol].
      * destruct (IH (fun l =>
                        if invert
                        then mask_or (start l)
                               (Series ((fun r => negb (cell_is_bool v
                                                         (cell_at (h r) [lnl])))
                                        <$> l))
                        else mask_and (start l)
                               (Series ((fun r => cell_is_bool v
                                                    (cell_at (h r) [lnl]))
                                        <$> l))))
          as [[e He]|(final & Hfinal & He)].
        -- destruct invert; [by apply rowwise_mask_or
                            |by apply rowwise_mask_and].
        -- left. exists e. intros l.
           rewrite get_match_idx_cons, Hlnl, column_present by done.
           rewrite bind_Ok. cbn [rows].
           rewrite <- !list_fmap_compose. apply He.
        -- right. exists final. split; [done|]. intros l.
           rewrite get_match_idx_cons, Hlnl, column_present by done.
           rewrite bind_Ok. cbn [rows].
           rewrite <- !list_fmap_compose. apply He.
      * left. exists KeyError. intros l.
        rewrite get_match_idx_cons, Hlnl, column_missing by done. done.
    + destruct (IH start Hstart) as [[e He]|(final & Hfinal & He)].
      * left. exists e. intros l.
        rewrite get_match_idx_cons, Hlnl. apply He.
      * right. exists final. split; [done|]. intros l.
        rewrite get_match_idx_cons, Hlnl. apply He.
Qed.

Lemma subframe_rows (n : nat) (c : list (list string))
    (l : list (gmap (list string) cell)) (label : string) :
  subframe (mkDataFrame n c l) label
  = if decide (omap (strip_label label) c = []) then Raise KeyError
    else Ok (mkDataFrame (pred n) (omap (strip_label label) c)
               ((fun r => list_to_map
                            ((fun k => (k, cell_at r (label :: k)))
                             <$> omap (strip_label label) c))
                <$> l)).
Proof. reflexivity. Qed.

Lemma do_lnls_match_ipsi
    (pattern : gmap string (gmap string (option bool)))
    (data eligible : DataFrame) (lnls : list string) (invert : bool) :
  nlevels data = 2 ->
  do_lnls_match pattern data eligible lnls invert
  = (ipsi ← dict_get pattern "ipsi";
     get_match_idx (Scalar (negb invert)) ipsi eligible lnls invert).
Proof. intros Hlevels. unfold do_lnls_match. by rewrite decide_True. Qed.

Lemma do_lnls_match_sides
    (pattern : gmap string (gmap string (option bool)))
    (data eligible : DataFrame) (lnls : list string) (invert : bool) :
  nlevels data <> 2 ->
  do_lnls_match pattern data eligible lnls invert
  = (ipsi ← dict_get pattern "ipsi";
     eligible_ipsi ← subframe eligible "ipsi";
     matched ←
       get_match_idx (Scalar (negb invert)) ipsi eligible_ipsi lnls invert;
     contra ← dict_get pattern "contra";
     eligible_contra ← subframe eligible "contra";
     get_match_idx matched contra eligible_contra lnls invert).
Proof.
  intros Hlevels. unfold do_lnls_match. rewrite decide_False by done.
  cbn [for_each].
  destruct (dict_get pattern "ipsi") as [ipsi|e]; [|done].
  rewrite !bind_Ok.
  destruct (subframe eligible "ipsi") as [eligible_ipsi|e]; [|done].
  rewrite !bind_Ok.
  destruct (get_match_idx _ ipsi eligible_ipsi lnls invert) as [matched|e];
    [|done].
  rewrite !bind_Ok.
  destruct (dict_get pattern "contra") as [contra|e]; [|done].
  rewrite !bind_Ok.
  destruct (subframe eligible "contra") as [eligible_contra|e]; [|done].
  rewrite !bind_Ok.
  by destruct (get_match_idx matched contra eligible_contra lnls invert).
Qed.

(** The same for the selector of [compute_observed_prevalence]. *)
Lemma do_lnls_match_rowwise
    (pattern : gmap string (gmap string (option bool))) (data : DataFrame)
    (lnls : list string) (invert : bool) (n : nat) (c : list (list string)) :
  (exists e, forall l,
     do_lnls_match pattern data (mkDataFrame n c l) lnls invert = Raise e)
  \/ (exists final,
        rowwise final
        /\ forall l,
             do_lnls_match pattern data (mkDataFrame n c l) lnls invert
             = Ok (final l)).
Proof.
  assert (Hstart : forall R : Type,
            rowwise (fun _ : list R => Scalar (negb invert)))
    by (intros R; left; by exists (negb invert)).
  destruct (decide (nlevels data = 2)) as [Hlevels|Hlevels].
  - destruct (dict_get pattern "ipsi") as [ipsi|e] eqn:Hipsi.
    2:{ left. exists e. intros l.
        by rewrite do_lnls_match_ipsi, Hipsi by done. }
    destruct (get_match_idx_rowwise ipsi lnls invert n c id _ (Hstart _))
      as [[e He]|(final & Hfinal & He)].
    + left. exists e. intros l.
      rewrite do_lnls_match_ipsi, Hipsi, bind_Ok by done.
      specialize (He l). by rewrite list_fmap_id in He.
    + right. exists final. split; [done|]. intros l.
      rewrite do_lnls_match_ipsi, Hipsi, bind_Ok by done.
      specialize (He l). by rewrite list_fmap_id in He.
  - destruct (dict_get pattern "ipsi") as [ipsi|e] eqn:Hipsi.
    2:{ left. exists e. intros l.
        by rewrite do_lnls_match_sides, Hipsi by done. }
    destruct (decide (omap (strip_label "ipsi") c = [])) as [Hnone|Hsome].
    { left. exists KeyError. intros l.
      rewrite do_lnls_match_sides, Hipsi, bind_Ok by done.
      rewrite (subframe_rows _ _ _ "ipsi").
      by rewrite decide_True. }
    destruct (get_match_idx_rowwise ipsi lnls invert (pred n)
                (omap (strip_label "ipsi") c)
                (fun r => list_to_map
                            ((fun k => (k, cell_at r ("ipsi" :: k)))
                             <$> omap (strip_label "ipsi") c))
                _ (Hstart _))
      as [[e He]|(first & Hfirst & He)].
    { left. exists e. intros l.
      rewrite do_lnls_match_sides, Hipsi, bind_Ok by done.
      rewrite (subframe_rows _ _ _ "ipsi").
      rewrite decide_False, bind_Ok by done. by rewrite He. }
    destruct (dict_get pattern "contra") as [contra|e] eqn:Hcontra.
    2:{ left. exists e. intros l.
        rewrite do_lnls_match_sides, Hipsi, bind_Ok by done.
        rewrite (subframe_rows _ _ _ "ipsi").
        rewrite decide_False, bind_Ok by done.
        by rewrite He, bind_Ok, Hcontra. }
    destruct (decide (omap (strip_label "contra") c = [])) as [Hnone'|Hsome'].
    { left. exists KeyError. intros l.
      rewrite do_lnls_match_sides, Hipsi, bind_Ok by done.
      rewrite (subframe_rows _ _ _ "ipsi").
      rewrite decide_False, bind_Ok by done.
      rewrite He, bind_Ok, Hcontra, bind_Ok, (subframe_rows _ _ _ "contra"). by rewrite decide_True. }
    destruct (get_match_idx_rowwise contra lnls invert (pred n)
                (omap (strip_label "contra") c)
                (fun r => list_to_map
                            ((fun k => (k, cell_at r ("contra" :: k)))
                             <$> omap (strip_label "contra") c))
                first Hfirst)
      as [[e He']|(final & Hfinal & He')].
    + left. exists e. intros l.
      rewrite do_lnls_match_sides, Hipsi, bind_Ok by done.
      rewrite (subframe_rows _ _ _ "ipsi").
      rewrite decide_False, bind_Ok by done.
      rewrite He, bind_Ok, Hcontra, bind_Ok, (subframe_rows _ _ _ "contra").
      rewrite decide_False, bind_Ok by done. apply He'.
    + right. exists final. split; [done|]. intros l.
      rewrite do_lnls_match_sides, Hipsi, bind_Ok by done.
      rewrite (subframe_rows _ _ _ "ipsi").
      rewrite decide_False, bind_Ok by done.
      rewrite He, bind_Ok, Hcontra, bind_Ok, (subframe_rows _ _ _ "contra").
      rewrite decide_False, bind_Ok by done. apply He'.
Qed.

Lemma does_t_stage_match_returns (data : DataFrame) (t_stage : string)
    (m : mask) :
  does_t_stage_match data t_stage = Ok m ->
  (nlevels data = 2 \/ nlevels data = 3)
  /\ t_stage_key data ∈ columns data.
Proof.
  unfold does_t_stage_match, t_stage_key, column.
  destruct (decide (nlevels data = 3)) as [Hthree|Hthree].
  - destruct (decide (_ ∈ columns data)); [by auto|done].
  - destruct (decide (nlevels data = 2)) as [Htwo|Htwo]; [|done].
    destruct (decide (_ ∈ columns data)); [by auto|done].
Qed.

Lemma filter_fmap_omap {A B : Type} (keep : A -> bool) (f : A -> B)
    (P : B -> Prop) `{forall y, Decision (P y)} (S : A -> bool) (l : list A) :
  filter P (f <$> filter (fun x => S x && keep x = true) l)
  = omap (fun x => if keep x
                   then if decide (P (f x)) then Some (f x) else None
                   else None)
      (filter (fun x => S x = true) l).
Proof.
  induction l as [|x l IH]; [done|].
  rewrite (filter_cons (fun x => S x && keep x = true)),
    (filter_cons (fun x => S x = true)).
  destruct (S x) eqn:HS, (keep x) eqn:Hkeep.
  - rewrite !decide_True by done. rewrite fmap_cons, filter_cons.
    cbn [omap list_omap]. rewrite Hkeep.
    destruct (decide (P (f x))); by rewrite IH.
  - rewrite decide_False, decide_True by done.
    cbn [omap list_omap]. by rewrite Hkeep.
  - by rewrite !decide_False by done.
  - by rewrite !decide_False by done.
Qed.

(** The eligible patients of all stages come from one table by the same
    steps: the filter on the stage, and then a map that drops or keeps
    each row by itself. *)
Lemma eligible_data_stage (data eligible : DataFrame)
    (t_stage modality : string) (midline_ext : option bool) :
  eligible_data data t_stage modality midline_ext = Ok eligible ->
  exists (n : nat) (c : list (list string))
    (g : gmap (list string) cell -> option (gmap (list string) cell)),
    forall t_stage',
      eligible_data data t_stage' modality midline_ext
      = Ok (mkDataFrame n c
              (omap g (filter (fun r => row_has_t_stage data t_stage' r = true)
                         (rows data)))).
Proof.
  unfold eligible_data, loc.
  destruct (does_t_stage_match data t_stage) as [stage|e] eqn:Hstage; [|done].
  destruct (does_t_stage_match_returns _ _ _ Hstage) as [Hlevels Hkey].
  rewrite does_t_stage_match_present in Hstage by done.
  injection Hstage as <-. rewrite bind_Ok.
  assert (exists keep : gmap (list string) cell -> bool,
            does_midline_ext_match data midline_ext
            = Ok (Scalar true) /\ keep = (fun _ => true)
            \/ does_midline_ext_match data midline_ext
               = Ok (Series (keep <$> rows data))
            \/ exists e, does_midline_ext_match data midline_ext = Raise e)
    as [keep Hkeep].
  { unfold does_midline_ext_match.
    destruct midline_ext as [v|]; [|exists (fun _ => true); by left].
    destruct (decide (nlevels data = 2)); [exists (fun _ => true); by left|].
    unfold column.
    destruct (decide (_ ∈ columns data)).
    - exists (fun r => cell_is_bool v
                         (cell_at r ["info"; "tumor"; "midline_extension"])).
      right. left. by rewrite <- list_fmap_compose.
    - exists (fun _ => true). right. right. by exists KeyError. }
  set (below := omap (strip_label modality) (columns data)).
  set (strip := fun r : gmap (list string) cell =>
                  (list_to_map
                     ((fun k => (k, cell_at r (modality :: k))) <$> below)
                   : gmap (list string) cell)).
  set (present := fun r : gmap (list string) cell =>
                    Exists (fun k => cell_at r k <> CNone) below).
  destruct Hkeep as [[Hext ->]|[Hext|[e Hext]]]; rewrite Hext;
    [| |done].
  - rewrite bind_Ok. intros Heligible.
    destruct (decide (below = [])) as [Hnone|Hsome].
    { revert Heligible. cbn [mask_and loc_rows]. rewrite bind_Ok.
      unfold subframe. cbn [columns]. by rewrite decide_True. }
    exists (pred (nlevels data)), below,
      (fun r => if (fun _ => true) r
                then if decide (present (strip r)) then Some (strip r)
                     else None
                else None).
    intros t_stage'.
    rewrite does_t_stage_match_present by done.
    rewrite !bind_Ok. cbn [mask_and loc_rows].
    rewrite <- list_fmap_compose, select_rows_fmap.
    rewrite bind_Ok, subframe_rows, decide_False, bind_Ok by done.
    unfold dropna_all. cbn [columns rows nlevels].
    f_equal. f_equal.
    pose proof (filter_fmap_omap (fun _ => true) strip present
                  (row_has_t_stage data t_stage') (rows data)) as Hrows.
    exact Hrows.
  - rewrite bind_Ok. intros Heligible.
    destruct (decide (below = [])) as [Hnone|Hsome].
    { revert Heligible. cbn [mask_and loc_rows]. rewrite bind_Ok.
      unfold subframe. cbn [columns]. by rewrite decide_True. }
    exists (pred (nlevels data)), below,
      (fun r => if keep r
                then if decide (present (strip r)) then Some (strip r)
                     else None
                else None).
    intros t_stage'.
    rewrite does_t_stage_match_present by done.
    rewrite !bind_Ok. cbn [mask_and loc_rows].
    rewrite zip_with_fmap_same, select_rows_fmap.
    rewrite bind_Ok, subframe_rows, decide_False, bind_Ok by done.
    unfold dropna_all. cbn [columns rows nlevels].
    f_equal. f_equal.
    pose proof (filter_fmap_omap keep strip present
                  (row_has_t_stage data t_stage') (rows data)) as Hrows.
    exact Hrows.
Qed.

Lemma row_has_t_stage_early_late (data : DataFrame)
    (r : gmap (list string) cell) :
  row_has_t_stage data "early/late" r
  = row_has_t_stage data "early" r || row_has_t_stage data "late" r
  /\ (row_has_t_stage data "early" r = true ->
      row_has_t_stage data "late" r = false).
Proof.
  unfold row_has_t_stage.
  rewrite decide_True, !decide_False by done.
  split; [apply cell_isin_early_late|].
  unfold cell_is_str. intros Hearly%bool_decide_eq_true.
  rewrite Hearly. by apply bool_decide_eq_false.
Qed.

(** Rows of two exclusive kinds: what is kept of the rows of either kind
    is as much as what is kept of the rows of the one kind and of the rows
    of the other kind together. *)
Lemma length_omap_filter_split {A B : Type} (g : A -> option B)
    (f : B -> bool) (P Q PQ : A -> bool) (l : list A) :
  (forall x, PQ x = P x || Q x) ->
  (forall x, P x = true -> Q x = false) ->
  length (filter (fun y => f y = true)
            (omap g (filter (fun x => PQ x = true) l)))
  = length (filter (fun y => f y = true)
              (omap g (filter (fun x => P x = true) l)))
    + length (filter (fun y => f y = true)
                (omap g (filter (fun x => Q x = true) l))).
Proof.
  intros Hboth Hexclusive.
  induction l as [|x l IH]; [done|].
  rewrite !filter_cons. rewrite (Hboth x).
  specialize (Hexclusive x).
  destruct (P x), (Q x); try (by discriminate Hexclusive).
  - rewrite !decide_True, (decide_False (P := false = true)) by done.
    cbn [omap list_omap orb].
    destruct (g x) as [y|]; [|done].
    rewrite !filter_cons. destruct (decide (f y = true)); simpl; lia.
  - rewrite (decide_True (P := false || true = true)),
      (decide_True (P := true = true)),
      (decide_False (P := false = true)) by done.
    cbn [omap list_omap].
    destruct (g x) as [y|]; [|done].
    rewrite !filter_cons. destruct (decide (f y = true)); simpl; lia.
  - by rewrite !decide_False by done.
Qed.

Lemma filter_always {A : Type} (l : list A) :
  filter (fun _ : A => true = true) l = l.
Proof.
  induction l as [|x l IH]; [done|].
  rewrite filter_cons, decide_True by done. by rewrite IH.
Qed.

(** X21: the observed counts of the stage "early/late" are the sums of
    those of the stages "early" and "late": when the two single stages
    return their counts, the combined stage returns the sum of the
    matching and the sum of the eligible patients. *)
Theorem compute_observed_prevalence_early_late
    (pattern : option (gmap string (gmap string (option bool))))
    (data : DataFrame) (lnls : list string) (modality : string)
    (midline_ext : option bool) (invert : bool)
    (early_match early_total late_match late_total : nat) :
  compute_observed_prevalence pattern data lnls "early" modality midline_ext
    invert = Ok (early_match, early_total) ->
  compute_observed_prevalence pattern data lnls "late" modality midline_ext
    invert = Ok (late_match, late_total) ->
  compute_observed_prevalence pattern data lnls "early/late" modality
    midline_ext invert
  = Ok (early_match + late_match, early_total + late_total).
Proof.
  unfold compute_observed_prevalence.
  destruct (eligible_data data "early" modality midline_ext)
    as [eligible|e] eqn:Heligible; [|done].
  destruct (eligible_data_stage _ _ _ _ _ Heligible) as (n & c & g & Hstage).
  rewrite Hstage in Heligible. injection Heligible as <-.
  rewrite !Hstage, !bind_Ok.
  pose proof (fun f => length_omap_filter_split g f
                         (row_has_t_stage data "early")
                         (row_has_t_stage data "late")
                         (row_has_t_stage data "early/late") (rows data)
                         (fun r => proj1 (row_has_t_stage_early_late data r))
                         (fun r => proj2 (row_has_t_stage_early_late data r)))
    as Hsplit.
  pose proof (Hsplit (fun _ => true)) as Htotal.
  rewrite !filter_always in Htotal.
  destruct (do_lnls_match_rowwise (complete_pattern pattern lnls) data lnls
              invert n c)
    as [[e Hmatch]|(final & [[b Hfinal]|[f Hfinal]] & Hmatch)].
  - by rewrite Hmatch.
  - rewrite !Hmatch, !Hfinal, !bind_Ok. cbn [loc_rows].
    intros [= <- <-] [= <- <-]. unfold len. cbn [rows].
    rewrite Htotal. by destruct invert.
  - rewrite !Hmatch, !Hfinal, !bind_Ok. cbn [loc_rows].
    intros [= <- <-] [= <- <-]. unfold len. cbn [rows].
    rewrite !select_rows_fmap, Htotal. by rewrite (Hsplit f).
Qed.

Lemma compute_observed_prevalence_early_late_witness :
  compute_observed_prevalence (Some {[ "ipsi" := docstring_pattern ]})
    unilateral_table ["II"; "III"] "early/late" "max_llh" None false
  = Ok (2, 3).
Proof.
  apply (compute_observed_prevalence_early_late
           (Some {[ "ipsi" := docstring_pattern ]}) unilateral_table
           ["II"; "III"] "max_llh" None false 1 2 1 1);
    vm_compute; reflexivity.
Defined.
